(** * enb-bemxjst-i18n: the [bemhtml-i18n] and [bemtree-i18n] techs

    A shallow embedding of [techs/bemhtml-i18n.js] and [techs/bemtree-i18n.js]
    and the properties of the localized template bundle builder.

    Promises are modelled by a writer/error monad: a computation yields the
    trace of calls it made to its collaborators and either a value
    (fulfilled) or an error (rejected). *)

From stdpp Require Import base strings list gmap.

Set Warnings "-clear-no-such-hyp".


(** ** JavaScript data *)

(** Plain JavaScript values, as far as the techs pass them around. *)
#[warnings="-register-all"]
Inductive json :=
| JUndefined
| JNull
| JBool (b : bool)
| JNum (n : Z)
| JStr (s : string)
| JArr (items : list json)
| JObj (fields : list (string * json)).

(** Rejection reasons, after the taxonomy of the specification. *)
Inductive Error :=
| MissingConfigurationError (option_name : string)
| FileReadError (filename : string)
| KeysetParseError (message : string)
| CompilationError (message : string).

Inductive result (A : Type) :=
| Ok (a : A)
| Err (e : Error).
Arguments Ok {A} a.
Arguments Err {A} e.

(** An entry of the source sequence handed to the template compiler. The
    entry the builder appends is the object literal [{ contents: ... }], which
    has no [path]. *)
Record Source := { path : option string; contents : string }.

(** The object [keysets.parse] returns; the techs read these three fields. *)
Record Parsed := { core : json; keysets : json; version : json }.

(** The object literal [{ version: ..., language: ... }] of [_compileI18N]. *)
Record I18NOpts := { opt_version : json; opt_language : json }.

(** The node cache is an opaque handle that is only threaded through. *)
Inductive Cache := CacheHandle (id : nat).

(** ** Calls to collaborators *)

Inductive Event :=
| EvReadFile (filename : string)
| EvKeysetsRead (filename : string) (cache : Cache) (root : string)
| EvKeysetsParse (keysetsSource : json)
| EvCompileI18N (core keysets : json) (opts : I18NOpts)
| EvCompileBEMXJST (sources : list Source) (mode : option string)
| EvMockBEMHTML
| EvMockBEMTREE.

(** ** Promises *)

Definition M (A : Type) : Type := (list Event * result A)%type.

Definition trace_of {A} (m : M A) : list Event := fst m.
Definition outcome {A} (m : M A) : result A := snd m.

Definition resolve {A} (a : A) : M A := ([], Ok a).
Definition reject {A} (e : Error) : M A := ([], Err e).

(** [p.then(f)]: the callback runs only when [p] is fulfilled; a rejection is
    passed on. *)
Definition then_ {A B} (p : M A) (f : A -> M B) : M B :=
  match p with
  | (t, Ok a) => let q := f a in (t ++ trace_of q, outcome q)
  | (t, Err e) => (t, Err e)
  end.

#[global] Instance M_ret : MRet M := @resolve.
#[global] Instance M_bind : MBind M := fun A B f p => then_ p f.

(** A call to a collaborator: it is recorded, and settles as the collaborator
    says. *)
Definition call {A} (ev : Event) (r : result A) : M A := ([ev], r).

(** When both promises given to [vow.all] are rejected, the one rejected first
    in time decides; the schedule says which one that is. *)
Inductive Branch := FirstBranch | SecondBranch.

(** [vow.all([p, q])]: both promises have been created by the time [vow.all]
    is called, so both run; the result is fulfilled with both values, or
    rejected with the reason of a rejected one. The calls of [p] are listed
    before those of [q]. *)
Definition vow_all {A B} (sched : Branch) (p : M A) (q : M B) : M (A * B) :=
  (trace_of p ++ trace_of q,
   match outcome p, outcome q with
   | Ok a, Ok b => Ok (a, b)
   | Err e, Ok _ => Err e
   | Ok _, Err e => Err e
   | Err e1, Err e2 =>
       match sched with FirstBranch => Err e1 | SecondBranch => Err e2 end
   end).

(** [lines.join(sep)] *)
Fixpoint join (sep : string) (lines : list string) : string :=
  match lines with
  | [] => ""
  | [l] => l
  | l :: rest => l +:+ sep +:+ join sep rest
  end.

(** ** Projections of a trace *)

Definition compiler_calls (t : list Event) : list (list Source * option string) :=
  omap (fun ev => match ev with
                  | EvCompileBEMXJST s m => Some (s, m)
                  | _ => None
                  end) t.

Definition i18n_calls (t : list Event) : list (json * json * I18NOpts) :=
  omap (fun ev => match ev with
                  | EvCompileI18N c k o => Some (c, k, o)
                  | _ => None
                  end) t.

Definition keyset_reads (t : list Event) : list string :=
  omap (fun ev => match ev with
                  | EvKeysetsRead f _ _ => Some f
                  | _ => None
                  end) t.

Definition file_reads (t : list Event) : list string :=
  omap (fun ev => match ev with
                  | EvReadFile f => Some f
                  | _ => None
                  end) t.

(** ** The collaborators *)

(** The modules the techs require: [os], [enb-bem-i18n/lib/keysets],
    [enb-bem-i18n/lib/compile], and the file system behind them. *)
Record Libs := {
  EOL : string;
  fs_read : string -> result string;
  keysets_read : string -> Cache -> string -> result json;
  keysets_parse : json -> result Parsed;
  compileI18N : json -> json -> I18NOpts -> result string
}.

Record Node := {
  getRootDir : string;
  getNodeCache : string -> Cache
}.

(** An entry of the file list. *)
Record FileEntry := { file_path : string }.

(** What both techs inherit from [enb-bemxjst], and the fields the build flow
    sets on the instance. *)
Record BemXjst := {
  node : Node;
  _lang : json;
  _target : string;
  processSources : list Source -> result (list Source);
  compileBEMXJST : list Source -> option string -> result string
}.

(** The instance of each tech: the base, and the bundle its placeholder
    producer yields. *)
Record BemhtmlTech := { bemhtml_base :> BemXjst; mockBEMHTML : string }.
Record BemtreeTech := { bemtree_base :> BemXjst; mockBEMTREE : string }.

(** Modelled from the spec: [_getUniqueFilenames] of the base tech is not in
    this repository. The specification: deduplicate the file list by file
    path, later duplicates in the same build dropped. *)
Fixpoint uniqueFrom (seen : gset string) (fileList : list FileEntry) : list string :=
  match fileList with
  | [] => []
  | file :: rest =>
      if decide (file_path file ∈ seen) then uniqueFrom seen rest
      else file_path file :: uniqueFrom ({[file_path file]} ∪ seen) rest
  end.

Definition _getUniqueFilenames (fileList : list FileEntry) : list string :=
  uniqueFrom ∅ fileList.

(** Modelled from the spec: [_readFiles] of the base tech is not in this
    repository. The specification: read each file's contents into one ordered
    source sequence of entries with the file's path and textual contents; the
    build fails if a template file cannot be read. The files are read in the
    order of the names, and the first that cannot be read rejects the whole. *)
Fixpoint _readFiles (libs : Libs) (filenames : list string) : M (list Source) :=
  match filenames with
  | [] => resolve []
  | filename :: rest =>
      text ← call (EvReadFile filename) (fs_read libs filename);
      sources ← _readFiles libs rest;
      resolve ({| path := Some filename; contents := text |} :: sources)
  end.

(** [_processSources] and [_compileBEMXJST] of the base tech, as calls. *)
Definition _processSources (this : BemXjst) (sources : list Source) : M (list Source) :=
  ([], processSources this sources).

Definition _compileBEMXJST (this : BemXjst) (sources : list Source)
    (mode : option string) : M string :=
  call (EvCompileBEMXJST sources mode) (compileBEMXJST this sources mode).

(** Modelled from the spec: [_mockBEMHTML] and [_mockBEMTREE] of the base
    techs are not in this repository. The specification: the template
    compiler exposes a producer of a minimal placeholder bundle for the
    zero-template case. *)
Definition _mockBEMHTML (this : BemhtmlTech) : M string :=
  call EvMockBEMHTML (Ok (mockBEMHTML this)).

Definition _mockBEMTREE (this : BemtreeTech) : M string :=
  call EvMockBEMTREE (Ok (mockBEMTREE this)).

(** ** The build flow *)

(** What a tech declares through the fluent [buildFlow()] chain:
    [.name(n)], [.target(option, default)], [.defineRequiredOption(o)] and
    [.useSourceFilename(option, default)]. *)
Record BuildFlow := {
  flow_name : string;
  flow_target : string * string;
  flow_required : list string;
  flow_source_filename : string * string
}.

(** The options a tech is configured with, a JavaScript object. *)
Abbreviation Options := (gmap string json).

(** The option values a configured instance holds. *)
Record Configured := {
  cfg_target : json;
  cfg_lang : json;
  cfg_keysetsFile : json
}.

(** The host side of an instance: the node, the expansion of a naming pattern
    for a language, and the methods of the base tech. *)
Record Host := {
  host_node : Node;
  expand : json -> json -> string;
  host_processSources : list Source -> result (list Source);
  host_compileBEMXJST : list Source -> option string -> result string;
  host_mockBEMHTML : string;
  host_mockBEMTREE : string
}.

(** Modelled from the spec: the option handling of the host's build flow is
    not in this repository. The specification: an option that is not given
    takes its declared default. *)
Definition getOption (options : Options) (name : string) (default : string) : json :=
  match options !! name with
  | Some v => v
  | None => JStr default
  end.

(** Modelled from the spec: the check of required options by the host's build
    flow is not in this repository. The specification: the task fails with a
    MissingConfigurationError if a required option is absent, and cannot
    start. *)
Fixpoint firstMissing (options : Options) (required : list string) : option string :=
  match required with
  | [] => None
  | name :: rest =>
      match options !! name with
      | None => Some name
      | Some _ => firstMissing options rest
      end
  end.

(** Modelled from the spec: the configuration of an instance by the host's
    build flow is not in this repository. The specification: the required
    options are checked, then the target, the language and the keyset file
    take the given options or the declared defaults. [cfg_lang] is the value
    of the required option [lang], which both techs declare. *)
Definition configure (flow : BuildFlow) (options : Options) : result Configured :=
  match firstMissing options (flow_required flow) with
  | Some name => Err (MissingConfigurationError name)
  | None =>
      Ok {| cfg_target := getOption options (fst (flow_target flow)) (snd (flow_target flow));
            cfg_lang := getOption options "lang" "";
            cfg_keysetsFile :=
              getOption options (fst (flow_source_filename flow))
                                (snd (flow_source_filename flow)) |}
  end.

Definition instantiate (host : Host) (cfg : Configured) : BemXjst :=
  {| node := host_node host;
     _lang := cfg_lang cfg;
     _target := expand host (cfg_target cfg) (cfg_lang cfg);
     processSources := host_processSources host;
     compileBEMXJST := host_compileBEMXJST host |}.

(** ** techs/bemhtml-i18n.js *)

Module BemhtmlI18n.

(** [_getBEMHTMLSources], lines 97-102. *)
Definition _getBEMHTMLSources (libs : Libs) (this : BemhtmlTech)
    (fileList : list FileEntry) : M (list Source) :=
  let filenames := _getUniqueFilenames fileList in
  _readFiles libs filenames ≫= _processSources this.

(** [_readKeysetsFile], lines 131-137. *)
Definition _readKeysetsFile (libs : Libs) (this : BemhtmlTech)
    (filename : string) : M json :=
  let node := node this in
  let root := getRootDir node in
  let cache := getNodeCache node (_target this) in
  call (EvKeysetsRead filename cache root) (keysets_read libs filename cache root).

(** [_compileI18N], lines 112-123. [keysets.parse] is called inside the
    callback of [then], so an exception of the parser rejects the promise. *)
Definition _compileI18N (libs : Libs) (this : BemhtmlTech)
    (keysetsFilename : string) : M string :=
  keysetsSource ← _readKeysetsFile libs this keysetsFilename;
  parsed ← call (EvKeysetsParse keysetsSource) (keysets_parse libs keysetsSource);
  let opts := {| opt_version := version parsed; opt_language := _lang this |} in
  call (EvCompileI18N (core parsed) (keysets parsed) opts)
       (compileI18N libs (core parsed) (keysets parsed) opts).

(** The object literal given to [concat], lines 77-84. *)
Definition initEntry (libs : Libs) (I18NCode : string) : Source :=
  {| path := None;
     contents := join (EOL libs)
       [ "oninit(function(exports, context) {";
         "    var BEMContext = exports.BEMContext || context.BEMContext;";
         "    BEMContext.prototype.i18n = " +:+ I18NCode +:+ ";";
         "});" ] |}.

(** The function given to [.builder], lines 66-88. [spread] is called with
    [this] in the place of the rejection handler, which [vow] takes as the
    context of the callback: a rejection of the join is passed on. *)
Definition builder (libs : Libs) (this : BemhtmlTech) (sched : Branch)
    (fileList : list FileEntry) (keysetsFilename : string) : M string :=
  if decide (length fileList = 0) then _mockBEMHTML this
  else
    '(BEMHTMLSources, I18NCode) ←
      vow_all sched (_getBEMHTMLSources libs this fileList)
                    (_compileI18N libs this keysetsFilename);
    let sources := BEMHTMLSources ++ [initEntry libs I18NCode] in
    _compileBEMXJST this sources None.

(** The declaration chain, lines 61-65. *)
Definition declaration : BuildFlow :=
  {| flow_name := "bemhtml-i18n";
     flow_target := ("target", "?.bemhtml.{lang}.js");
     flow_required := ["lang"];
     flow_source_filename := ("keysetsFile", "?.keysets.{lang}.js") |}.

(** Modelled from the spec: how the host runs a declared tech is not in this
    repository. The specification: the task is configured first, and the
    builder receives the file list and the keyset file's path. *)
Definition run (libs : Libs) (host : Host) (options : Options) (sched : Branch)
    (fileList : list FileEntry) : M string :=
  match configure declaration options with
  | Err e => reject e
  | Ok cfg =>
      builder libs
        {| bemhtml_base := instantiate host cfg; mockBEMHTML := host_mockBEMHTML host |}
        sched fileList (expand host (cfg_keysetsFile cfg) (cfg_lang cfg))
  end.

End BemhtmlI18n.

(** ** techs/bemtree-i18n.js *)

Module BemtreeI18n.

(** [_getBEMTREESources], lines 97-102. *)
Definition _getBEMTREESources (libs : Libs) (this : BemtreeTech)
    (fileList : list FileEntry) : M (list Source) :=
  let filenames := _getUniqueFilenames fileList in
  _readFiles libs filenames ≫= _processSources this.

(** [_readKeysetsFile], lines 131-137. *)
Definition _readKeysetsFile (libs : Libs) (this : BemtreeTech)
    (filename : string) : M json :=
  let node := node this in
  let root := getRootDir node in
  let cache := getNodeCache node (_target this) in
  call (EvKeysetsRead filename cache root) (keysets_read libs filename cache root).

(** [_compileI18N], lines 112-123. [keysets.parse] is called inside the
    callback of [then], so an exception of the parser rejects the promise. *)
Definition _compileI18N (libs : Libs) (this : BemtreeTech)
    (keysetsFilename : string) : M string :=
  keysetsSource ← _readKeysetsFile libs this keysetsFilename;
  parsed ← call (EvKeysetsParse keysetsSource) (keysets_parse libs keysetsSource);
  let opts := {| opt_version := version parsed; opt_language := _lang this |} in
  call (EvCompileI18N (core parsed) (keysets parsed) opts)
       (compileI18N libs (core parsed) (keysets parsed) opts).

(** The object literal given to [concat], lines 77-84. *)
Definition initEntry (libs : Libs) (I18NCode : string) : Source :=
  {| path := None;
     contents := join (EOL libs)
       [ "oninit(function(exports, context) {";
         "    var BEMContext = exports.BEMContext || context.BEMContext;";
         "    BEMContext.prototype.i18n = " +:+ I18NCode +:+ ";";
         "});" ] |}.

(** The function given to [.builder], lines 66-88. [spread] is called with
    [this] in the place of the rejection handler, which [vow] takes as the
    context of the callback: a rejection of the join is passed on. *)
Definition builder (libs : Libs) (this : BemtreeTech) (sched : Branch)
    (fileList : list FileEntry) (keysetsFilename : string) : M string :=
  if decide (length fileList = 0) then _mockBEMTREE this
  else
    '(BEMTREESources, I18NCode) ←
      vow_all sched (_getBEMTREESources libs this fileList)
                    (_compileI18N libs this keysetsFilename);
    let sources := BEMTREESources ++ [initEntry libs I18NCode] in
    _compileBEMXJST this sources (Some "bemtree").

(** The declaration chain, lines 61-65. *)
Definition declaration : BuildFlow :=
  {| flow_name := "bemtree-i18n";
     flow_target := ("target", "?.bemtree.{lang}.js");
     flow_required := ["lang"];
     flow_source_filename := ("keysetsFile", "?.keysets.{lang}.js") |}.

(** Modelled from the spec: how the host runs a declared tech is not in this
    repository. The specification: the task is configured first, and the
    builder receives the file list and the keyset file's path. *)
Definition run (libs : Libs) (host : Host) (options : Options) (sched : Branch)
    (fileList : list FileEntry) : M string :=
  match configure declaration options with
  | Err e => reject e
  | Ok cfg =>
      builder libs
        {| bemtree_base := instantiate host cfg; mockBEMTREE := host_mockBEMTREE host |}
        sched fileList (expand host (cfg_keysetsFile cfg) (cfg_lang cfg))
  end.

End BemtreeI18n.

(** ** A concrete build *)

Module Demo.

Definition LF : string := String (Ascii.ascii_of_nat 10) "".

Definition parsed : Parsed :=
  {| core := JUndefined;
     keysets := JObj [("en", JObj [("a", JObj [("b", JStr "hi")])])];
     version := JNum 1 |}.

Definition libs : Libs :=
  {| EOL := LF;
     fs_read := fun f =>
       if String.eqb f "a.bemhtml" then Ok "block('a')"
       else if String.eqb f "b.bemhtml" then Ok "block('b')"
       else Err (FileReadError f);
     keysets_read := fun f _ _ =>
       if String.eqb f "bundle.keysets.en.js" then Ok (JStr "keysets-source")
       else Err (FileReadError f);
     keysets_parse := fun s =>
       match s with
       | JStr "keysets-source" => Ok parsed
       | _ => Err (KeysetParseError "unexpected keysets")
       end;
     compileI18N := fun _ _ _ => Ok "i18n-code" |}.

Definition base : BemXjst :=
  {| node := {| getRootDir := "/project"; getNodeCache := fun _ => CacheHandle 0 |};
     _lang := JStr "en";
     _target := "bundle.bemhtml.en.js";
     processSources := fun sources => Ok sources;
     compileBEMXJST := fun sources _ => Ok (join LF (map contents sources)) |}.

Definition bemhtml : BemhtmlTech := {| bemhtml_base := base; mockBEMHTML := "mock-bemhtml" |}.
Definition bemtree : BemtreeTech := {| bemtree_base := base; mockBEMTREE := "mock-bemtree" |}.

Definition host : Host :=
  {| host_node := node base;
     expand := fun pattern _ => match pattern with JStr s => s | _ => "" end;
     host_processSources := processSources base;
     host_compileBEMXJST := compileBEMXJST base;
     host_mockBEMHTML := "mock-bemhtml";
     host_mockBEMTREE := "mock-bemtree" |}.

Definition a : FileEntry := {| file_path := "a.bemhtml" |}.
Definition b : FileEntry := {| file_path := "b.bemhtml" |}.
Definition missing : FileEntry := {| file_path := "missing.bemhtml" |}.

End Demo.

(** ** Notions used in the statements *)

(** The specification's reading of the empty case: with an empty file list
    the keyset file is still read. *)
Definition keyset_read_on_empty (libs : Libs) (this : BemhtmlTech) (sched : Branch)
    (kf : string) : Prop :=
  kf ∈ keyset_reads (trace_of (BemhtmlI18n.builder libs this sched [] kf)).

(** A call with what tells the two techs apart taken out: the mode given to
    the template compiler, and which placeholder producer is called. *)
Definition erase_flavor (ev : Event) : Event :=
  match ev with
  | EvCompileBEMXJST sources _ => EvCompileBEMXJST sources None
  | EvMockBEMTREE => EvMockBEMHTML
  | _ => ev
  end.

(** How a build settles once the two branches are joined, for a given mode of
    the template compiler. *)
Definition settle (this : BemXjst) (entry : string -> Source) (mode : option string)
    (joined : result (list Source * string)) : result string :=
  match joined with
  | Ok (sources, code) => compileBEMXJST this (sources ++ [entry code]) mode
  | Err e => Err e
  end.

(** * Properties *)

(** ** The concrete build *)

Example demo_build_fulfilled :
  BemhtmlI18n.builder Demo.libs Demo.bemhtml FirstBranch
    [Demo.a; Demo.b; Demo.a] "bundle.keysets.en.js"
  = ([ EvReadFile "a.bemhtml"; EvReadFile "b.bemhtml";
       EvKeysetsRead "bundle.keysets.en.js" (CacheHandle 0) "/project";
       EvKeysetsParse (JStr "keysets-source");
       EvCompileI18N JUndefined (keysets Demo.parsed)
         {| opt_version := JNum 1; opt_language := JStr "en" |};
       EvCompileBEMXJST
         [ {| path := Some "a.bemhtml"; contents := "block('a')" |};
           {| path := Some "b.bemhtml"; contents := "block('b')" |};
           BemhtmlI18n.initEntry Demo.libs "i18n-code" ] None ],
     Ok (join Demo.LF
           [ "block('a')"; "block('b')";
             "oninit(function(exports, context) {";
             "    var BEMContext = exports.BEMContext || context.BEMContext;";
             "    BEMContext.prototype.i18n = i18n-code;";
             "});" ])).
Proof. vm_compute. reflexivity. Qed.

Example demo_build_both_rejected_first :
  BemtreeI18n.builder Demo.libs Demo.bemtree FirstBranch
    [Demo.a; Demo.missing; Demo.b] "absent.keysets.en.js"
  = ([ EvReadFile "a.bemhtml"; EvReadFile "missing.bemhtml";
       EvKeysetsRead "absent.keysets.en.js" (CacheHandle 0) "/project" ],
     Err (FileReadError "missing.bemhtml")).
Proof. vm_compute. reflexivity. Qed.

Example demo_build_both_rejected_second :
  BemtreeI18n.builder Demo.libs Demo.bemtree SecondBranch
    [Demo.a; Demo.missing; Demo.b] "absent.keysets.en.js"
  = ([ EvReadFile "a.bemhtml"; EvReadFile "missing.bemhtml";
       EvKeysetsRead "absent.keysets.en.js" (CacheHandle 0) "/project" ],
     Err (FileReadError "absent.keysets.en.js")).
Proof. vm_compute. reflexivity. Qed.

Example demo_run_empty :
  BemtreeI18n.run Demo.libs Demo.host {[ "lang" := JStr "en" ]} FirstBranch []
  = ([EvMockBEMTREE], Ok "mock-bemtree").
Proof. vm_compute. reflexivity. Qed.

(** ** Promises and traces *)

Lemma then_trace_ok {A B} (p : M A) (f : A -> M B) a :
  outcome p = Ok a -> trace_of (p ≫= f) = trace_of p ++ trace_of (f a).
Proof. destruct p as [t r]; simpl; intros ->; reflexivity. Qed.

Lemma then_outcome_ok {A B} (p : M A) (f : A -> M B) a :
  outcome p = Ok a -> outcome (p ≫= f) = outcome (f a).
Proof. destruct p as [t r]; simpl; intros ->; reflexivity. Qed.

Lemma then_trace_err {A B} (p : M A) (f : A -> M B) e :
  outcome p = Err e -> trace_of (p ≫= f) = trace_of p.
Proof. destruct p as [t r]; simpl; intros ->; reflexivity. Qed.

Lemma then_outcome_err {A B} (p : M A) (f : A -> M B) e :
  outcome p = Err e -> outcome (p ≫= f) = Err e.
Proof. destruct p as [t r]; simpl; intros ->; reflexivity. Qed.

Lemma vow_all_trace {A B} sched (p : M A) (q : M B) :
  trace_of (vow_all sched p q) = trace_of p ++ trace_of q.
Proof. reflexivity. Qed.

Lemma vow_all_ok {A B} sched (p : M A) (q : M B) a b :
  outcome p = Ok a -> outcome q = Ok b -> outcome (vow_all sched p q) = Ok (a, b).
Proof. unfold vow_all; simpl; intros -> ->; reflexivity. Qed.

(** A rejected branch rejects the join, with the reason of a rejected
    branch. *)
Lemma vow_all_err {A B} sched (p : M A) (q : M B) :
  (exists e, outcome p = Err e) \/ (exists e, outcome q = Err e) ->
  exists e, outcome (vow_all sched p q) = Err e
            /\ (outcome p = Err e \/ outcome q = Err e).
Proof.
  unfold vow_all; simpl.
  destruct (outcome p) as [a|e1], (outcome q) as [b|e2], sched;
    intros [[e He]|[e He]]; try discriminate; eauto.
Qed.

(** ** The empty file list *)

(** C1: with an empty file list the builder of either tech returns the
    placeholder bundle of [_mockBEMHTML] / [_mockBEMTREE] as a fulfilled
    result, making no other call; the result is the same whatever the
    libraries (file system, keyset reader, parser, localization compiler),
    the keyset file name and the schedule are. *)
Theorem C1_empty_fileList_returns_mock
    (libs libs' : Libs) (base : BemXjst) (mH mT : string)
    (sched sched' : Branch) (kf kf' : string) :
  let thisH := {| bemhtml_base := base; mockBEMHTML := mH |} in
  let thisT := {| bemtree_base := base; mockBEMTREE := mT |} in
  BemhtmlI18n.builder libs thisH sched [] kf = _mockBEMHTML thisH
  /\ BemtreeI18n.builder libs thisT sched [] kf = _mockBEMTREE thisT
  /\ outcome (BemhtmlI18n.builder libs thisH sched [] kf) = Ok mH
  /\ outcome (BemtreeI18n.builder libs thisT sched [] kf) = Ok mT
  /\ BemhtmlI18n.builder libs thisH sched [] kf
     = BemhtmlI18n.builder libs' thisH sched' [] kf'
  /\ BemtreeI18n.builder libs thisT sched [] kf
     = BemtreeI18n.builder libs' thisT sched' [] kf'.
Proof. repeat split. Qed.

(** C5 fails on the code: in the concrete build the empty file list leaves the
    keyset file unread. *)
Lemma C5_keyset_not_read_on_empty :
  ~ keyset_read_on_empty Demo.libs Demo.bemhtml FirstBranch "bundle.keysets.en.js".
Proof. unfold keyset_read_on_empty; simpl. apply not_elem_of_nil. Qed.

(** C5, amended: with an empty file list the builder of either tech returns
    before the keyset branch is started: the keyset file is not read, not
    parsed, and the localization compiler is not invoked; the only call is the
    one to the placeholder producer. *)
Theorem C5_empty_fileList_skips_keyset_branch
    (libs : Libs) (base : BemXjst) (mH mT : string) (sched : Branch) (kf : string) :
  let tH := trace_of (BemhtmlI18n.builder libs
                        {| bemhtml_base := base; mockBEMHTML := mH |} sched [] kf) in
  let tT := trace_of (BemtreeI18n.builder libs
                        {| bemtree_base := base; mockBEMTREE := mT |} sched [] kf) in
  tH = [EvMockBEMHTML] /\ tT = [EvMockBEMTREE]
  /\ keyset_reads tH = [] /\ keyset_reads tT = []
  /\ i18n_calls tH = [] /\ i18n_calls tT = []
  /\ (forall s, EvKeysetsParse s ∉ tH) /\ (forall s, EvKeysetsParse s ∉ tT).
Proof.
  repeat split; intros s Hs; simpl in Hs;
    apply list_elem_of_singleton in Hs; discriminate.
Qed.

(** ** Configuration *)

(** C6: when the [lang] option is absent, running either tech is rejected
    with a MissingConfigurationError; no call has been made (no file read, no
    compiler invoked), and no bundle is produced. *)
Theorem C6_missing_lang_fails
    (libs : Libs) (host : Host) (options : Options) (sched : Branch)
    (fileList : list FileEntry) :
  options !! "lang" = None ->
  BemhtmlI18n.run libs host options sched fileList
    = ([], Err (MissingConfigurationError "lang"))
  /\ BemtreeI18n.run libs host options sched fileList
    = ([], Err (MissingConfigurationError "lang")).
Proof.
  intros Hlang.
  unfold BemhtmlI18n.run, BemtreeI18n.run, configure; simpl.
  rewrite Hlang. split; reflexivity.
Qed.

Lemma C6_missing_lang_fails_witness :
  (∅ : Options) !! "lang" = None
  /\ BemhtmlI18n.run Demo.libs Demo.host ∅ FirstBranch [Demo.a]
     = ([], Err (MissingConfigurationError "lang")).
Proof.
  split; [reflexivity|].
  apply (C6_missing_lang_fails Demo.libs Demo.host ∅ FirstBranch [Demo.a]).
  reflexivity.
Defined.

(** C9: each tech declares a language-templated default for its target
    ('?.bemhtml.{lang}.js', '?.bemtree.{lang}.js') and for its keyset file
    ('?.keysets.{lang}.js'); a configuration that gives neither option takes
    these defaults. *)
Theorem C9_default_patterns (options : Options) (lang : json) :
  options !! "lang" = Some lang ->
  options !! "target" = None ->
  options !! "keysetsFile" = None ->
  configure BemhtmlI18n.declaration options
    = Ok {| cfg_target := JStr "?.bemhtml.{lang}.js";
            cfg_lang := lang;
            cfg_keysetsFile := JStr "?.keysets.{lang}.js" |}
  /\ configure BemtreeI18n.declaration options
    = Ok {| cfg_target := JStr "?.bemtree.{lang}.js";
            cfg_lang := lang;
            cfg_keysetsFile := JStr "?.keysets.{lang}.js" |}.
Proof.
  intros Hlang Htarget Hkeysets.
  unfold configure, getOption; simpl.
  rewrite Hlang, Htarget, Hkeysets. split; reflexivity.
Qed.

Lemma C9_default_patterns_witness :
  configure BemhtmlI18n.declaration {[ "lang" := JStr "en" ]}
    = Ok {| cfg_target := JStr "?.bemhtml.{lang}.js";
            cfg_lang := JStr "en";
            cfg_keysetsFile := JStr "?.keysets.{lang}.js" |}.
Proof.
  apply (C9_default_patterns {[ "lang" := JStr "en" ]} (JStr "en"));
    reflexivity.
Defined.

(** ** The two branches *)

Lemma readFiles_trace libs filenames :
  exists read, trace_of (_readFiles libs filenames) = map EvReadFile read
               /\ read `prefix_of` filenames.
Proof.
  induction filenames as [|f rest [read [Ht Hp]]]; simpl.
  - exists []. split; [reflexivity | apply prefix_nil].
  - destruct (fs_read libs f) as [text|e] eqn:Hf.
    + exists (f :: read).
      destruct (_readFiles libs rest) as [t [srcs|e]]; simpl in *;
        rewrite Ht; split; try apply prefix_cons; try done.
      by rewrite app_nil_r.
    + exists [f]. split; [reflexivity|]. apply prefix_cons, prefix_nil.
Qed.

(** What a fulfilled [_readFiles] yields: one entry per file name, in order,
    with the contents the file system gives for that name. *)
Lemma readFiles_ok libs filenames sources :
  outcome (_readFiles libs filenames) = Ok sources ->
  map path sources = map Some filenames
  /\ Forall2 (fun f s => fs_read libs f = Ok (contents s)) filenames sources
  /\ trace_of (_readFiles libs filenames) = map EvReadFile filenames.
Proof.
  revert sources.
  induction filenames as [|f rest IH]; simpl; intros sources H.
  - injection H as <-. repeat split. constructor.
  - destruct (fs_read libs f) as [text|e] eqn:Hf; simpl in H; [|discriminate].
    destruct (_readFiles libs rest) as [t [srcs|e]]; simpl in *; [|discriminate].
    injection H as <-.
    destruct (IH srcs eq_refl) as (Hp & Hc & Ht). simpl.
    rewrite Hp, Ht, app_nil_r. repeat split. by constructor.
Qed.

Lemma compiler_calls_reads read : compiler_calls (map EvReadFile read) = [].
Proof. induction read; simpl; auto. Qed.

Lemma i18n_calls_reads read : i18n_calls (map EvReadFile read) = [].
Proof. induction read; simpl; auto. Qed.

Lemma file_reads_reads read : file_reads (map EvReadFile read) = read.
Proof. induction read; simpl; f_equal; auto. Qed.

(** The template branch of either tech reads files and calls nothing else. *)
Lemma getSources_trace libs (this : BemXjst) fileList :
  trace_of (_readFiles libs (_getUniqueFilenames fileList) ≫= _processSources this)
  = trace_of (_readFiles libs (_getUniqueFilenames fileList)).
Proof.
  destruct (_readFiles libs (_getUniqueFilenames fileList)) as [t [srcs|e]];
    simpl; [apply app_nil_r | reflexivity].
Qed.

Lemma getSources_outcome libs (this : BemXjst) fileList :
  outcome (_readFiles libs (_getUniqueFilenames fileList) ≫= _processSources this)
  = match outcome (_readFiles libs (_getUniqueFilenames fileList)) with
    | Ok raw => processSources this raw
    | Err e => Err e
    end.
Proof.
  destruct (_readFiles libs (_getUniqueFilenames fileList)) as [t [srcs|e]];
    reflexivity.
Qed.

(** The keyset branch never calls the template compiler. *)
Lemma compileI18N_no_compiler_call libs (this : BemhtmlTech) kf :
  compiler_calls (trace_of (BemhtmlI18n._compileI18N libs this kf)) = [].
Proof.
  unfold BemhtmlI18n._compileI18N, BemhtmlI18n._readKeysetsFile; simpl.
  destruct (keysets_read libs kf _ _) as [raw|e]; simpl; [|reflexivity].
  destruct (keysets_parse libs raw) as [parsed|e]; simpl; reflexivity.
Qed.

(** The keyset branch reads no template file. *)
Lemma compileI18N_no_file_read libs (this : BemhtmlTech) kf :
  file_reads (trace_of (BemhtmlI18n._compileI18N libs this kf)) = [].
Proof.
  unfold BemhtmlI18n._compileI18N, BemhtmlI18n._readKeysetsFile; simpl.
  destruct (keysets_read libs kf _ _) as [raw|e]; simpl; [|reflexivity].
  destruct (keysets_parse libs raw) as [parsed|e]; simpl; reflexivity.
Qed.

(** Both techs have the same two branches. *)
Lemma branches_agree libs (base : BemXjst) mH mT fileList kf :
  BemtreeI18n._getBEMTREESources libs {| bemtree_base := base; mockBEMTREE := mT |} fileList
  = BemhtmlI18n._getBEMHTMLSources libs {| bemhtml_base := base; mockBEMHTML := mH |} fileList
  /\ BemtreeI18n._compileI18N libs {| bemtree_base := base; mockBEMTREE := mT |} kf
  = BemhtmlI18n._compileI18N libs {| bemhtml_base := base; mockBEMHTML := mH |} kf
  /\ (forall code, BemtreeI18n.initEntry libs code = BemhtmlI18n.initEntry libs code).
Proof. repeat split. Qed.

(** The builders on a non-empty file list, in terms of the two branches. *)
Lemma bemhtml_builder_nonempty libs this sched fileList kf :
  fileList <> [] ->
  BemhtmlI18n.builder libs this sched fileList kf
  = vow_all sched (BemhtmlI18n._getBEMHTMLSources libs this fileList)
                  (BemhtmlI18n._compileI18N libs this kf)
    ≫= (fun '(srcs, code) =>
          _compileBEMXJST this (srcs ++ [BemhtmlI18n.initEntry libs code]) None).
Proof. destruct fileList; [done|]. reflexivity. Qed.

Lemma bemtree_builder_nonempty libs this sched fileList kf :
  fileList <> [] ->
  BemtreeI18n.builder libs this sched fileList kf
  = vow_all sched (BemtreeI18n._getBEMTREESources libs this fileList)
                  (BemtreeI18n._compileI18N libs this kf)
    ≫= (fun '(srcs, code) =>
          _compileBEMXJST this (srcs ++ [BemtreeI18n.initEntry libs code]) (Some "bemtree")).
Proof. destruct fileList; [done|]. reflexivity. Qed.

(** ** The join and the template compiler *)

Section Join.
Context (this : BemXjst) (entry : string -> Source) (mode : option string).
Context (sched : Branch) (p : M (list Source)) (q : M string).
Hypothesis p_quiet : compiler_calls (trace_of p) = [].
Hypothesis q_quiet : compiler_calls (trace_of q) = [].

Let k : list Source * string -> M string :=
  fun '(srcs, code) => _compileBEMXJST this (srcs ++ [entry code]) mode.

Lemma join_fulfilled srcs code :
  outcome p = Ok srcs -> outcome q = Ok code ->
  compiler_calls (trace_of (vow_all sched p q ≫= k)) = [(srcs ++ [entry code], mode)]
  /\ outcome (vow_all sched p q ≫= k) = compileBEMXJST this (srcs ++ [entry code]) mode.
Proof using p_quiet q_quiet.
  intros Hp Hq.
  pose proof (vow_all_ok sched p q srcs code Hp Hq) as Hj.
  rewrite (then_trace_ok _ k _ Hj), (then_outcome_ok _ k _ Hj), vow_all_trace.
  unfold compiler_calls in *. rewrite !omap_app, p_quiet, q_quiet.
  split; reflexivity.
Qed.

Lemma join_rejected :
  (exists e, outcome p = Err e) \/ (exists e, outcome q = Err e) ->
  exists e, outcome (vow_all sched p q ≫= k) = Err e
            /\ (outcome p = Err e \/ outcome q = Err e)
            /\ compiler_calls (trace_of (vow_all sched p q ≫= k)) = []
            /\ trace_of (vow_all sched p q ≫= k) = trace_of p ++ trace_of q.
Proof using p_quiet q_quiet.
  intros H. destruct (vow_all_err sched p q H) as (e & He & Hpq).
  exists e. rewrite (then_outcome_err _ k _ He), (then_trace_err _ k _ He), vow_all_trace.
  repeat split; try done.
  unfold compiler_calls in *. by rewrite omap_app, p_quiet, q_quiet.
Qed.

(** After the join the only call is the one to the template compiler. *)
Lemma join_omap {X} (f : Event -> option X) :
  (forall srcs m, f (EvCompileBEMXJST srcs m) = None) ->
  omap f (trace_of (vow_all sched p q ≫= k))
  = omap f (trace_of p) ++ omap f (trace_of q).
Proof using Type.
  intros Hf.
  destruct (outcome (vow_all sched p q)) as [[srcs code]|e] eqn:Hj.
  - rewrite (then_trace_ok _ k _ Hj), vow_all_trace.
    rewrite !omap_app. simpl. by rewrite Hf, app_nil_r.
  - rewrite (then_trace_err _ k _ Hj), vow_all_trace.
    by rewrite omap_app.
Qed.

(** The localization compiler is called by the branches only. *)
Lemma join_i18n_calls :
  i18n_calls (trace_of (vow_all sched p q ≫= k))
  = i18n_calls (trace_of p) ++ i18n_calls (trace_of q).
Proof using Type. by apply join_omap. Qed.

(** So are the template files read. *)
Lemma join_file_reads :
  file_reads (trace_of (vow_all sched p q ≫= k))
  = file_reads (trace_of p) ++ file_reads (trace_of q).
Proof using Type. by apply join_omap. Qed.

(** Whatever the branches do, a call to the template compiler gets the
    sources of the first branch followed by the entry built from the code of
    the second. *)
Lemma join_calls_shape call_ :
  call_ ∈ compiler_calls (trace_of (vow_all sched p q ≫= k)) ->
  exists srcs code, outcome p = Ok srcs /\ outcome q = Ok code
                    /\ call_ = (srcs ++ [entry code], mode).
Proof using p_quiet q_quiet.
  destruct (outcome p) as [srcs|e1] eqn:Hp.
  - destruct (outcome q) as [code|e2] eqn:Hq.
    + destruct (join_fulfilled srcs code Hp Hq) as [-> _].
      intros ->%list_elem_of_singleton. eauto.
    + destruct join_rejected as (e & _ & _ & -> & _); [right; eauto|].
      intros []%not_elem_of_nil.
  - destruct join_rejected as (e & _ & _ & -> & _); [left; eauto|].
    intros []%not_elem_of_nil.
Qed.
End Join.

Lemma bemhtml_sources_quiet libs this fileList :
  compiler_calls (trace_of (BemhtmlI18n._getBEMHTMLSources libs this fileList)) = [].
Proof.
  unfold BemhtmlI18n._getBEMHTMLSources; simpl. rewrite getSources_trace.
  destruct (readFiles_trace libs (_getUniqueFilenames fileList)) as (read & -> & _).
  apply compiler_calls_reads.
Qed.

(** ** The keyset branch *)

(** C4: when the keyset file's contents parse to version V, keysets K and
    core C, [_compileI18N] of either tech reads the file, hands the raw
    contents to the parser only, and invokes the localization compiler exactly
    once, with (C, K, {version: V, language: the configured language}); so
    does the builder on every non-empty file list. *)
Theorem C4_localization_compiler_call
    (libs : Libs) (base : BemXjst) (mH mT : string) (kf : string) (raw V K C : json) :
  keysets_read libs kf (getNodeCache (node base) (_target base)) (getRootDir (node base))
    = Ok raw ->
  keysets_parse libs raw = Ok {| core := C; keysets := K; version := V |} ->
  let thisH := {| bemhtml_base := base; mockBEMHTML := mH |} in
  let thisT := {| bemtree_base := base; mockBEMTREE := mT |} in
  let opts := {| opt_version := V; opt_language := _lang base |} in
  let calls :=
    [ EvKeysetsRead kf (getNodeCache (node base) (_target base)) (getRootDir (node base));
      EvKeysetsParse raw;
      EvCompileI18N C K opts ] in
  trace_of (BemhtmlI18n._compileI18N libs thisH kf) = calls
  /\ trace_of (BemtreeI18n._compileI18N libs thisT kf) = calls
  /\ outcome (BemhtmlI18n._compileI18N libs thisH kf) = compileI18N libs C K opts
  /\ outcome (BemtreeI18n._compileI18N libs thisT kf) = compileI18N libs C K opts
  /\ forall sched fileList, fileList <> [] ->
       i18n_calls (trace_of (BemhtmlI18n.builder libs thisH sched fileList kf))
         = [(C, K, opts)]
       /\ i18n_calls (trace_of (BemtreeI18n.builder libs thisT sched fileList kf))
         = [(C, K, opts)].
Proof.
  intros Hread Hparse thisH thisT opts calls.
  assert (Ht : trace_of (BemhtmlI18n._compileI18N libs thisH kf) = calls).
  { unfold BemhtmlI18n._compileI18N, BemhtmlI18n._readKeysetsFile; simpl.
    rewrite Hread; simpl. rewrite Hparse; reflexivity. }
  assert (Ho : outcome (BemhtmlI18n._compileI18N libs thisH kf) = compileI18N libs C K opts).
  { unfold BemhtmlI18n._compileI18N, BemhtmlI18n._readKeysetsFile; simpl.
    rewrite Hread; simpl. rewrite Hparse; reflexivity. }
  assert (Hp : forall fileList,
             i18n_calls (trace_of (BemhtmlI18n._getBEMHTMLSources libs thisH fileList)) = []).
  { intros fileList. unfold BemhtmlI18n._getBEMHTMLSources; simpl.
    rewrite getSources_trace.
    destruct (readFiles_trace libs (_getUniqueFilenames fileList)) as (read & -> & _).
    apply i18n_calls_reads. }
  do 4 (split; [assumption|]).
  intros sched fileList Hne. split.
  - rewrite bemhtml_builder_nonempty, join_i18n_calls, Hp, Ht by assumption.
    reflexivity.
  - rewrite bemtree_builder_nonempty by assumption.
    rewrite join_i18n_calls.
    change (BemtreeI18n._getBEMTREESources libs thisT fileList)
      with (BemhtmlI18n._getBEMHTMLSources libs thisH fileList).
    change (BemtreeI18n._compileI18N libs thisT kf)
      with (BemhtmlI18n._compileI18N libs thisH kf).
    rewrite Hp, Ht. reflexivity.
Qed.

Lemma C4_localization_compiler_call_witness :
  i18n_calls (trace_of (BemhtmlI18n.builder Demo.libs Demo.bemhtml FirstBranch
                          [Demo.a] "bundle.keysets.en.js"))
  = [(JUndefined, keysets Demo.parsed,
      {| opt_version := JNum 1; opt_language := JStr "en" |})].
Proof.
  destruct (C4_localization_compiler_call Demo.libs Demo.base "mock-bemhtml" "mock-bemtree"
              "bundle.keysets.en.js" (JStr "keysets-source")
              (JNum 1) (keysets Demo.parsed) JUndefined eq_refl eq_refl)
    as (_ & _ & _ & _ & H).
  destruct (H FirstBranch [Demo.a]) as [HH _]; [discriminate|].
  exact HH.
Defined.

(** ** Failure of a branch *)

(** C7: on a non-empty file list, when the template branch or the keyset
    branch is rejected, the build of either tech is rejected with the reason
    of a rejected branch (of the rejected one when only one is), whatever the
    other branch yields; the template compiler is not invoked, so no bundle,
    partial or not, is produced. *)
Theorem C7_branch_failure_fails_build
    (libs : Libs) (base : BemXjst) (mH mT : string) (sched : Branch)
    (fileList : list FileEntry) (kf : string) :
  let thisH := {| bemhtml_base := base; mockBEMHTML := mH |} in
  let thisT := {| bemtree_base := base; mockBEMTREE := mT |} in
  let p := BemhtmlI18n._getBEMHTMLSources libs thisH fileList in
  let q := BemhtmlI18n._compileI18N libs thisH kf in
  let p' := BemtreeI18n._getBEMTREESources libs thisT fileList in
  let q' := BemtreeI18n._compileI18N libs thisT kf in
  fileList <> [] ->
  (exists e, outcome p = Err e) \/ (exists e, outcome q = Err e) ->
  (exists e, outcome (BemhtmlI18n.builder libs thisH sched fileList kf) = Err e
             /\ (outcome p = Err e \/ outcome q = Err e)
             /\ compiler_calls (trace_of (BemhtmlI18n.builder libs thisH sched fileList kf)) = [])
  /\ (exists e, outcome (BemtreeI18n.builder libs thisT sched fileList kf) = Err e
             /\ (outcome p' = Err e \/ outcome q' = Err e)
             /\ compiler_calls (trace_of (BemtreeI18n.builder libs thisT sched fileList kf)) = []).
Proof.
  intros thisH thisT p q p' q' Hne Hfail.
  pose proof (bemhtml_sources_quiet libs thisH fileList) as Hp.
  pose proof (compileI18N_no_compiler_call libs thisH kf) as Hq.
  split.
  - rewrite bemhtml_builder_nonempty by assumption.
    destruct (join_rejected thisH (BemhtmlI18n.initEntry libs) None sched p q Hp Hq Hfail)
      as (e & He & Hpq & Hc & _).
    exists e. auto.
  - rewrite bemtree_builder_nonempty by assumption.
    destruct (join_rejected thisT (BemtreeI18n.initEntry libs) (Some "bemtree") sched
                p' q' Hp Hq Hfail)
      as (e & He & Hpq & Hc & _).
    exists e. auto.
Qed.

Lemma C7_branch_failure_fails_build_witness :
  outcome (BemhtmlI18n._compileI18N Demo.libs Demo.bemhtml "absent.keysets.en.js")
    = Err (FileReadError "absent.keysets.en.js")
  /\ exists e,
       outcome (BemhtmlI18n.builder Demo.libs Demo.bemhtml FirstBranch [Demo.a]
                  "absent.keysets.en.js") = Err e.
Proof.
  split; [reflexivity|].
  destruct (C7_branch_failure_fails_build Demo.libs Demo.base "mock-bemhtml" "mock-bemtree"
              FirstBranch [Demo.a] "absent.keysets.en.js") as [(e & He & _) _].
  - discriminate.
  - right. exists (FileReadError "absent.keysets.en.js"). reflexivity.
  - exists e. exact He.
Defined.

(** ** The sources handed to the template compiler *)

(** C2: on a non-empty file list, every call of either tech to the template
    compiler gets the processed sources of the deduplicated file names, in
    their order, followed by the initialization entry as the last element and
    nothing else; there is one such call when both branches are fulfilled,
    the build settles as that call does, and the template files read are the
    deduplicated names. *)
Theorem C2_compiler_sources
    (libs : Libs) (base : BemXjst) (mH mT : string) (sched : Branch)
    (fileList : list FileEntry) (kf : string) :
  let thisH := {| bemhtml_base := base; mockBEMHTML := mH |} in
  let thisT := {| bemtree_base := base; mockBEMTREE := mT |} in
  let bH := BemhtmlI18n.builder libs thisH sched fileList kf in
  let bT := BemtreeI18n.builder libs thisT sched fileList kf in
  fileList <> [] ->
  (forall sources mode,
      (sources, mode) ∈ compiler_calls (trace_of bH)
      \/ (sources, mode) ∈ compiler_calls (trace_of bT) ->
      exists raw processed code,
        outcome (_readFiles libs (_getUniqueFilenames fileList)) = Ok raw
        /\ map path raw = map Some (_getUniqueFilenames fileList)
        /\ Forall2 (fun f s => fs_read libs f = Ok (contents s))
                   (_getUniqueFilenames fileList) raw
        /\ processSources base raw = Ok processed
        /\ outcome (BemhtmlI18n._compileI18N libs thisH kf) = Ok code
        /\ sources = processed ++ [BemhtmlI18n.initEntry libs code]
        /\ last sources = Some (BemhtmlI18n.initEntry libs code))
  /\ (forall raw processed code,
        outcome (_readFiles libs (_getUniqueFilenames fileList)) = Ok raw ->
        processSources base raw = Ok processed ->
        outcome (BemhtmlI18n._compileI18N libs thisH kf) = Ok code ->
        let sources := processed ++ [BemhtmlI18n.initEntry libs code] in
        compiler_calls (trace_of bH) = [(sources, None)]
        /\ compiler_calls (trace_of bT) = [(sources, Some "bemtree")]
        /\ outcome bH = compileBEMXJST base sources None
        /\ outcome bT = compileBEMXJST base sources (Some "bemtree")
        /\ file_reads (trace_of bH) = _getUniqueFilenames fileList
        /\ file_reads (trace_of bT) = _getUniqueFilenames fileList).
Proof.
  intros thisH thisT bH bT Hne.
  pose proof (bemhtml_sources_quiet libs thisH fileList) as Hp.
  pose proof (compileI18N_no_compiler_call libs thisH kf) as Hq.
  assert (HbH := bemhtml_builder_nonempty libs thisH sched fileList kf Hne).
  assert (HbT := bemtree_builder_nonempty libs thisT sched fileList kf Hne).
  fold bH in HbH. fold bT in HbT.
  assert (Hshape : forall processed code,
             outcome (BemhtmlI18n._getBEMHTMLSources libs thisH fileList) = Ok processed ->
             exists raw,
               outcome (_readFiles libs (_getUniqueFilenames fileList)) = Ok raw
               /\ map path raw = map Some (_getUniqueFilenames fileList)
               /\ Forall2 (fun f s => fs_read libs f = Ok (contents s))
                          (_getUniqueFilenames fileList) raw
               /\ processSources base raw = Ok processed
               /\ last (processed ++ [BemhtmlI18n.initEntry libs code])
                  = Some (BemhtmlI18n.initEntry libs code)).
  { intros processed code Hproc.
    unfold BemhtmlI18n._getBEMHTMLSources in Hproc; simpl in Hproc.
    rewrite getSources_outcome in Hproc.
    destruct (outcome (_readFiles libs (_getUniqueFilenames fileList))) as [raw|e] eqn:Hraw;
      [|discriminate].
    exists raw. destruct (readFiles_ok _ _ _ Hraw) as (Hpath & Hcont & _).
    repeat split; try done. apply last_snoc. }
  split.
  - intros sources mode [Hin|Hin].
    + rewrite HbH in Hin.
      apply (join_calls_shape thisH (BemhtmlI18n.initEntry libs) None sched _ _ Hp Hq) in Hin.
      destruct Hin as (processed & code & Hproc & Hcode & Heq).
      injection Heq as -> ->.
      destruct (Hshape processed code Hproc) as (raw & ? & ? & ? & ? & ?).
      exists raw, processed, code. repeat split; done.
    + rewrite HbT in Hin.
      apply (join_calls_shape thisT (BemtreeI18n.initEntry libs) (Some "bemtree") sched
               _ _ Hp Hq) in Hin.
      destruct Hin as (processed & code & Hproc & Hcode & Heq).
      injection Heq as -> ->.
      destruct (Hshape processed code Hproc) as (raw & ? & ? & ? & ? & ?).
      exists raw, processed, code. repeat split; done.
  - intros raw processed code Hraw Hproc Hcode sources.
    assert (Hsrc : outcome (BemhtmlI18n._getBEMHTMLSources libs thisH fileList) = Ok processed).
    { unfold BemhtmlI18n._getBEMHTMLSources; simpl.
      rewrite getSources_outcome, Hraw. exact Hproc. }
    destruct (join_fulfilled thisH (BemhtmlI18n.initEntry libs) None sched _ _ Hp Hq
                processed code Hsrc Hcode) as [H1 H2].
    destruct (join_fulfilled thisT (BemtreeI18n.initEntry libs) (Some "bemtree") sched _ _ Hp Hq
                processed code Hsrc Hcode) as [H3 H4].
    assert (Hreads : file_reads (trace_of (BemhtmlI18n._getBEMHTMLSources libs thisH fileList))
                     = _getUniqueFilenames fileList).
    { unfold BemhtmlI18n._getBEMHTMLSources; simpl. rewrite getSources_trace.
      destruct (readFiles_ok _ _ _ Hraw) as (_ & _ & ->). apply file_reads_reads. }
    pose proof (compileI18N_no_file_read libs thisH kf) as Hqr.
    rewrite HbH, HbT. do 4 (split; [assumption|]).
    split.
    + by rewrite join_file_reads, Hqr, app_nil_r.
    + rewrite join_file_reads.
      change (BemtreeI18n._compileI18N libs thisT kf)
        with (BemhtmlI18n._compileI18N libs thisH kf).
      by rewrite Hqr, app_nil_r.
Qed.

Lemma C2_compiler_sources_witness :
  compiler_calls (trace_of (BemhtmlI18n.builder Demo.libs Demo.bemhtml FirstBranch
                              [Demo.a; Demo.b; Demo.a] "bundle.keysets.en.js"))
  = [([ {| path := Some "a.bemhtml"; contents := "block('a')" |};
        {| path := Some "b.bemhtml"; contents := "block('b')" |};
        BemhtmlI18n.initEntry Demo.libs "i18n-code" ], None)].
Proof.
  destruct (C2_compiler_sources Demo.libs Demo.base "mock-bemhtml" "mock-bemtree" FirstBranch
              [Demo.a; Demo.b; Demo.a] "bundle.keysets.en.js") as [_ H]; [discriminate|].
  destruct (H [ {| path := Some "a.bemhtml"; contents := "block('a')" |};
                {| path := Some "b.bemhtml"; contents := "block('b')" |} ]
              [ {| path := Some "a.bemhtml"; contents := "block('a')" |};
                {| path := Some "b.bemhtml"; contents := "block('b')" |} ]
              "i18n-code") as (HH & _); [vm_compute; reflexivity | reflexivity | reflexivity |].
  exact HH.
Defined.

(** ** Deduplication *)

Lemma uniqueFrom_elem seen fileList x :
  x ∈ uniqueFrom seen fileList <-> x ∈ map file_path fileList /\ x ∉ seen.
Proof.
  revert seen. induction fileList as [|f rest IH]; intros seen; simpl.
  - split; [intros []%not_elem_of_nil | intros [[]%not_elem_of_nil _]].
  - case_decide as Hf.
    + rewrite IH, elem_of_cons. split; [tauto|].
      intros [[->|Hx] Hn]; [done | tauto].
    + rewrite !elem_of_cons, IH. split.
      * intros [->|[Hx Hn]]; [tauto|]. split; [tauto|]. set_solver.
      * intros [[->|Hx] Hn]; [tauto|].
        destruct (decide (x = file_path f)) as [->|Hne]; [tauto|].
        right. split; [done|]. set_solver.
Qed.

Lemma uniqueFrom_NoDup seen fileList : NoDup (uniqueFrom seen fileList).
Proof.
  revert seen. induction fileList as [|f rest IH]; intros seen; simpl.
  - constructor.
  - case_decide; [apply IH|]. constructor; [|apply IH].
    rewrite uniqueFrom_elem. set_solver.
Qed.

Lemma uniqueFrom_sublist seen fileList :
  uniqueFrom seen fileList `sublist_of` map file_path fileList.
Proof.
  revert seen. induction fileList as [|f rest IH]; intros seen; simpl.
  - constructor.
  - case_decide; [apply sublist_cons, IH | apply sublist_skip, IH].
Qed.

(** Names that were seen already make no difference to what follows. *)
Lemma uniqueFrom_app seen l1 l2 :
  uniqueFrom seen (l1 ++ l2)
  = uniqueFrom seen l1 ++ uniqueFrom (list_to_set (map file_path l1) ∪ seen) l2.
Proof.
  revert seen. induction l1 as [|f rest IH]; intros seen; simpl.
  - by rewrite (left_id_L ∅ (∪)).
  - case_decide as Hf; rewrite IH; simpl; f_equal; [f_equal; set_solver|].
    f_equal. f_equal. set_solver.
Qed.

(** An entry whose path occurred earlier in the file list is dropped. *)
Lemma unique_drop_later l1 f l2 :
  file_path f ∈ map file_path l1 ->
  _getUniqueFilenames (l1 ++ f :: l2) = _getUniqueFilenames (l1 ++ l2).
Proof.
  intros Hin. unfold _getUniqueFilenames. rewrite !uniqueFrom_app. simpl.
  rewrite decide_True; [done|]. set_solver.
Qed.

(** A file list without duplicates is taken as it is. *)
Lemma uniqueFrom_id seen fileList :
  NoDup (map file_path fileList) ->
  (forall x, x ∈ map file_path fileList -> x ∉ seen) ->
  uniqueFrom seen fileList = map file_path fileList.
Proof.
  revert seen. induction fileList as [|f rest IH]; intros seen Hnd Hseen; simpl; [done|].
  apply NoDup_cons in Hnd as [Hf Hnd].
  rewrite decide_False by (apply Hseen; simpl; left).
  f_equal. apply IH; [done|].
  intros x Hx. specialize (Hseen x). simpl in Hseen.
  rewrite elem_of_cons in Hseen.
  assert (x <> file_path f) by (intros ->; done). set_solver.
Qed.

(** A file name that can be read gives the entry with that name and the
    contents of the file: [_readFiles] is fulfilled with exactly the entries
    of the names, in their order. *)
Lemma readFiles_complete libs names raw :
  map path raw = map Some names ->
  Forall2 (fun f s => fs_read libs f = Ok (contents s)) names raw ->
  _readFiles libs names = (map EvReadFile names, Ok raw).
Proof.
  intros Hpath Hread. revert Hpath.
  induction Hread as [|f s names raw Hf _ IH]; simpl; [done|].
  intros [= Hp Hrest]. rewrite Hf; simpl. rewrite (IH Hrest); simpl.
  rewrite app_nil_r. destruct s as [ps cs]; simpl in *. by subst.
Qed.

(** Among the entries read for names without duplicates, a name has exactly
    one entry, at the place of the name, with the contents of its file. *)
Lemma unique_entry_of_name libs names raw f :
  NoDup names -> f ∈ names ->
  map path raw = map Some names ->
  Forall2 (fun f s => fs_read libs f = Ok (contents s)) names raw ->
  exists i s,
    names !! i = Some f /\ raw !! i = Some s /\ path s = Some f
    /\ fs_read libs f = Ok (contents s)
    /\ forall j s', raw !! j = Some s' -> path s' = Some f -> j = i.
Proof.
  intros Hnd Hin Hpath Hread.
  apply list_elem_of_lookup in Hin as [i Hi].
  destruct (Forall2_lookup_l _ _ _ _ _ Hread Hi) as (s & Hs & Hf).
  assert (Hname : forall j s', raw !! j = Some s' -> names !! j = path s').
  { intros j s' Hj.
    assert (H : map path raw !! j = Some (path s')) by (by rewrite list_lookup_fmap, Hj).
    rewrite Hpath, list_lookup_fmap in H.
    destruct (names !! j) as [g|]; simpl in H; congruence. }
  exists i, s. repeat split; try done.
  - pose proof (Hname i s Hs) as H. by rewrite Hi in H.
  - intros j s' Hj Hp. apply (NoDup_lookup names j i f Hnd); [|done].
    by rewrite (Hname j s' Hj), Hp.
Qed.

(** On a non-empty file list the sources given to the template compiler are
    the processed entries of the unique names, then the initialization
    entry. *)
Lemma unique_sources_reach_compiler libs (base : BemXjst) mH mT sched fileList kf :
  let thisH := {| bemhtml_base := base; mockBEMHTML := mH |} in
  let thisT := {| bemtree_base := base; mockBEMTREE := mT |} in
  let bH := BemhtmlI18n.builder libs thisH sched fileList kf in
  let bT := BemtreeI18n.builder libs thisT sched fileList kf in
  let names := _getUniqueFilenames fileList in
  fileList <> [] ->
  (forall sources mode,
      (sources, mode) ∈ compiler_calls (trace_of bH)
      \/ (sources, mode) ∈ compiler_calls (trace_of bT) ->
      exists raw processed code,
        map path raw = map Some names
        /\ Forall2 (fun f s => fs_read libs f = Ok (contents s)) names raw
        /\ processSources base raw = Ok processed
        /\ sources = processed ++ [BemhtmlI18n.initEntry libs code])
  /\ (forall raw processed code,
        map path raw = map Some names ->
        Forall2 (fun f s => fs_read libs f = Ok (contents s)) names raw ->
        processSources base raw = Ok processed ->
        outcome (BemhtmlI18n._compileI18N libs thisH kf) = Ok code ->
        compiler_calls (trace_of bH)
          = [(processed ++ [BemhtmlI18n.initEntry libs code], None)]
        /\ compiler_calls (trace_of bT)
          = [(processed ++ [BemhtmlI18n.initEntry libs code], Some "bemtree")]
        /\ file_reads (trace_of bH) = names
        /\ file_reads (trace_of bT) = names).
Proof.
  intros thisH thisT bH bT names Hne.
  pose proof (bemhtml_sources_quiet libs thisH fileList) as Hp.
  pose proof (compileI18N_no_compiler_call libs thisH kf) as Hq.
  assert (HbH := bemhtml_builder_nonempty libs thisH sched fileList kf Hne).
  assert (HbT := bemtree_builder_nonempty libs thisT sched fileList kf Hne).
  fold bH in HbH. fold bT in HbT.
  split.
  - assert (Hshape : forall processed,
               outcome (BemhtmlI18n._getBEMHTMLSources libs thisH fileList) = Ok processed ->
               exists raw,
                 map path raw = map Some names
                 /\ Forall2 (fun f s => fs_read libs f = Ok (contents s)) names raw
                 /\ processSources base raw = Ok processed).
    { intros processed Hproc.
      unfold BemhtmlI18n._getBEMHTMLSources in Hproc; simpl in Hproc.
      rewrite getSources_outcome in Hproc. fold names in Hproc.
      destruct (outcome (_readFiles libs names)) as [raw|e] eqn:Hraw; [|discriminate].
      exists raw. destruct (readFiles_ok _ _ _ Hraw) as (Hpath & Hcont & _). done. }
    intros sources mode [Hin|Hin].
    + rewrite HbH in Hin.
      apply (join_calls_shape thisH (BemhtmlI18n.initEntry libs) None sched _ _ Hp Hq) in Hin.
      destruct Hin as (processed & code & Hproc & _ & [= -> ->]).
      destruct (Hshape processed Hproc) as (raw & ? & ? & ?).
      by exists raw, processed, code.
    + rewrite HbT in Hin.
      apply (join_calls_shape thisT (BemtreeI18n.initEntry libs) (Some "bemtree") sched
               _ _ Hp Hq) in Hin.
      destruct Hin as (processed & code & Hproc & _ & [= -> ->]).
      destruct (Hshape processed Hproc) as (raw & ? & ? & ?).
      by exists raw, processed, code.
  - intros raw processed code Hpath Hread Hproc Hcode.
    pose proof (readFiles_complete libs names raw Hpath Hread) as Hrf.
    assert (Hsrc : outcome (BemhtmlI18n._getBEMHTMLSources libs thisH fileList) = Ok processed).
    { unfold BemhtmlI18n._getBEMHTMLSources; simpl.
      rewrite getSources_outcome. fold names. by rewrite Hrf. }
    assert (Hreads : file_reads (trace_of (BemhtmlI18n._getBEMHTMLSources libs thisH fileList))
                     = names).
    { unfold BemhtmlI18n._getBEMHTMLSources; simpl. rewrite getSources_trace.
      fold names. rewrite Hrf. apply file_reads_reads. }
    pose proof (compileI18N_no_file_read libs thisH kf) as Hqr.
    destruct (join_fulfilled thisH (BemhtmlI18n.initEntry libs) None sched _ _ Hp Hq
                processed code Hsrc Hcode) as [H1 _].
    destruct (join_fulfilled thisT (BemtreeI18n.initEntry libs) (Some "bemtree") sched _ _ Hp Hq
                processed code Hsrc Hcode) as [H3 _].
    rewrite HbH, HbT. do 2 (split; [assumption|]). split.
    + by rewrite join_file_reads, Hqr, app_nil_r.
    + rewrite join_file_reads.
      change (BemtreeI18n._compileI18N libs thisT kf)
        with (BemhtmlI18n._compileI18N libs thisH kf).
      by rewrite Hqr, app_nil_r.
Qed.

(** C3: when two entries of the file list have the same path, the later one
    is dropped and the first one's contents are what the template compiler
    gets. The unique file names, and with them the whole build of either
    tech, are those of the file list without the later entry; no name occurs
    twice among them, every path of the file list occurs, the names keep the
    order of the file list, and when no other duplicate is left they are
    exactly the paths of the remaining entries. Every call to the template
    compiler gets the processed entries read for these names, one entry per
    name in their order, each with the contents of its file, followed by the
    initialization entry; among the entries read, the shared path has exactly
    one entry, and it stands where the first of the two entries stands when
    nothing before it has that path. When every unique name can be read, the
    sources processed and the localization code compiled, the compiler is
    called with exactly these sources, and the template files read are the
    unique names. *)
Theorem C3_later_duplicate_dropped
    (libs : Libs) (base : BemXjst) (mH mT : string) (sched : Branch) (kf : string)
    (l1 l2 l3 : list FileEntry) (a b : FileEntry) :
  let thisH := {| bemhtml_base := base; mockBEMHTML := mH |} in
  let thisT := {| bemtree_base := base; mockBEMTREE := mT |} in
  let fileList := l1 ++ a :: l2 ++ b :: l3 in
  let kept := l1 ++ a :: l2 ++ l3 in
  let bH := BemhtmlI18n.builder libs thisH sched fileList kf in
  let bT := BemtreeI18n.builder libs thisT sched fileList kf in
  let read_as (names : list string) (raw : list Source) :=
    map path raw = map Some names
    /\ Forall2 (fun f s => fs_read libs f = Ok (contents s)) names raw in
  file_path a = file_path b ->
  _getUniqueFilenames fileList = _getUniqueFilenames kept
  /\ bH = BemhtmlI18n.builder libs thisH sched kept kf
  /\ bT = BemtreeI18n.builder libs thisT sched kept kf
  /\ NoDup (_getUniqueFilenames fileList)
  /\ _getUniqueFilenames fileList `sublist_of` map file_path fileList
  /\ (forall x, x ∈ map file_path fileList -> x ∈ _getUniqueFilenames fileList)
  /\ (NoDup (map file_path kept) -> _getUniqueFilenames fileList = map file_path kept)
  /\ file_reads (trace_of bH) `prefix_of` _getUniqueFilenames fileList
  /\ file_reads (trace_of bT) `prefix_of` _getUniqueFilenames fileList
  /\ (forall sources mode,
        (sources, mode) ∈ compiler_calls (trace_of bH)
        \/ (sources, mode) ∈ compiler_calls (trace_of bT) ->
        exists raw processed code,
          read_as (_getUniqueFilenames kept) raw
          /\ processSources base raw = Ok processed
          /\ sources = processed ++ [BemhtmlI18n.initEntry libs code]
          /\ exists i s,
               raw !! i = Some s
               /\ path s = Some (file_path a)
               /\ fs_read libs (file_path a) = Ok (contents s)
               /\ (forall j s', raw !! j = Some s' -> path s' = Some (file_path a) -> j = i)
               /\ (file_path a ∉ map file_path l1 ->
                   i = length (_getUniqueFilenames l1)))
  /\ (forall raw processed code,
        read_as (_getUniqueFilenames kept) raw ->
        processSources base raw = Ok processed ->
        outcome (BemhtmlI18n._compileI18N libs thisH kf) = Ok code ->
        compiler_calls (trace_of bH)
          = [(processed ++ [BemhtmlI18n.initEntry libs code], None)]
        /\ compiler_calls (trace_of bT)
          = [(processed ++ [BemhtmlI18n.initEntry libs code], Some "bemtree")]
        /\ file_reads (trace_of bH) = _getUniqueFilenames kept
        /\ file_reads (trace_of bT) = _getUniqueFilenames kept).
Proof.
  intros thisH thisT fileList kept bH bT read_as Hab.
  assert (Huniq : _getUniqueFilenames fileList = _getUniqueFilenames kept).
  { replace fileList with ((l1 ++ a :: l2) ++ b :: l3)
      by (unfold fileList; by rewrite <- app_assoc).
    replace kept with ((l1 ++ a :: l2) ++ l3)
      by (unfold kept; by rewrite <- app_assoc).
    apply unique_drop_later. rewrite <- Hab, map_app. simpl. set_solver. }
  assert (Hne1 : fileList <> []) by (unfold fileList; destruct l1; discriminate).
  assert (Hne2 : kept <> []) by (unfold kept; destruct l1; discriminate).
  assert (HbH : bH = BemhtmlI18n.builder libs thisH sched kept kf).
  { unfold bH. rewrite !bemhtml_builder_nonempty by assumption.
    unfold BemhtmlI18n._getBEMHTMLSources. by rewrite Huniq. }
  assert (HbT : bT = BemtreeI18n.builder libs thisT sched kept kf).
  { unfold bT. rewrite !bemtree_builder_nonempty by assumption.
    unfold BemtreeI18n._getBEMTREESources. by rewrite Huniq. }
  split; [exact Huniq|].
  split; [exact HbH|].
  split; [exact HbT|].
  split; [apply uniqueFrom_NoDup|].
  split; [apply uniqueFrom_sublist|].
  split.
  { intros x Hx. apply uniqueFrom_elem. split; [done | set_solver]. }
  split.
  { intros Hnd. rewrite Huniq. apply uniqueFrom_id; [done | set_solver]. }
  assert (Hreads : file_reads (trace_of (BemhtmlI18n._getBEMHTMLSources libs thisH fileList))
                     `prefix_of` _getUniqueFilenames fileList).
  { unfold BemhtmlI18n._getBEMHTMLSources; simpl. rewrite getSources_trace.
    destruct (readFiles_trace libs (_getUniqueFilenames fileList)) as (read & -> & Hpre).
    by rewrite file_reads_reads. }
  pose proof (compileI18N_no_file_read libs thisH kf) as Hq.
  split.
  { unfold bH.
    rewrite bemhtml_builder_nonempty, join_file_reads, Hq, app_nil_r by assumption.
    exact Hreads. }
  split.
  { unfold bT. rewrite bemtree_builder_nonempty, join_file_reads by assumption.
    change (BemtreeI18n._compileI18N libs thisT kf)
      with (BemhtmlI18n._compileI18N libs thisH kf).
    rewrite Hq, app_nil_r. exact Hreads. }
  destruct (unique_sources_reach_compiler libs base mH mT sched kept kf Hne2)
    as [Hcalls Hcalled].
  rewrite HbH, HbT. split.
  - intros sources mode Hin.
    destruct (Hcalls sources mode Hin) as (raw & processed & code & Hpath & Hread & Hproc & ->).
    exists raw, processed, code. do 3 (split; [done|]).
    assert (Hin_a : file_path a ∈ _getUniqueFilenames kept).
    { apply uniqueFrom_elem. split; [|set_solver].
      unfold kept. rewrite map_app. simpl. set_solver. }
    destruct (unique_entry_of_name libs _ raw (file_path a)
                (uniqueFrom_NoDup ∅ kept) Hin_a Hpath Hread)
      as (i & s & Hi & Hs & Hp & Hf & Huni).
    exists i, s. do 4 (split; [done|]).
    intros Hfirst.
    apply (NoDup_lookup (_getUniqueFilenames kept) i _ (file_path a)
             (uniqueFrom_NoDup ∅ kept) Hi).
    unfold _getUniqueFilenames, kept. rewrite uniqueFrom_app. simpl.
    rewrite decide_False by set_solver.
    apply list_lookup_middle. reflexivity.
  - intros raw processed code [Hpath Hread] Hproc Hcode.
    exact (Hcalled raw processed code Hpath Hread Hproc Hcode).
Qed.

Lemma C3_later_duplicate_dropped_witness :
  _getUniqueFilenames [Demo.a; Demo.b; Demo.a] = ["a.bemhtml"; "b.bemhtml"]
  /\ BemhtmlI18n.builder Demo.libs Demo.bemhtml FirstBranch [Demo.a; Demo.b; Demo.a]
       "bundle.keysets.en.js"
     = BemhtmlI18n.builder Demo.libs Demo.bemhtml FirstBranch [Demo.a; Demo.b]
       "bundle.keysets.en.js"
  /\ compiler_calls
       (trace_of (BemhtmlI18n.builder Demo.libs Demo.bemhtml FirstBranch
                    [Demo.a; Demo.b; Demo.a] "bundle.keysets.en.js"))
     = [([ {| path := Some "a.bemhtml"; contents := "block('a')" |};
           {| path := Some "b.bemhtml"; contents := "block('b')" |};
           BemhtmlI18n.initEntry Demo.libs "i18n-code" ], None)].
Proof.
  destruct (C3_later_duplicate_dropped Demo.libs Demo.base "mock-bemhtml" "mock-bemtree"
              FirstBranch "bundle.keysets.en.js" [] [Demo.b] [] Demo.a Demo.a eq_refl)
    as (_ & HH & _ & _ & _ & _ & Hid & _ & _ & _ & Hcalled).
  split; [|split; [exact HH|]].
  - apply Hid. simpl. repeat constructor; set_solver.
  - destruct (Hcalled
                [ {| path := Some "a.bemhtml"; contents := "block('a')" |};
                  {| path := Some "b.bemhtml"; contents := "block('b')" |} ]
                [ {| path := Some "a.bemhtml"; contents := "block('a')" |};
                  {| path := Some "b.bemhtml"; contents := "block('b')" |} ]
                "i18n-code") as [Hc _].
    + split; [vm_compute; reflexivity|]. vm_compute. repeat constructor.
    + reflexivity.
    + reflexivity.
    + exact Hc.
Defined.

(** ** The two techs *)

Lemma join_erased this entry mode sched (p : M (list Source)) (q : M string) :
  map erase_flavor
      (trace_of (vow_all sched p q
                 ≫= (fun '(srcs, code) => _compileBEMXJST this (srcs ++ [entry code]) mode)))
  = map erase_flavor
      (trace_of (vow_all sched p q
                 ≫= (fun '(srcs, code) => _compileBEMXJST this (srcs ++ [entry code]) None)))
  /\ outcome (vow_all sched p q
              ≫= (fun '(srcs, code) => _compileBEMXJST this (srcs ++ [entry code]) mode))
     = settle this entry mode (outcome (vow_all sched p q)).
Proof.
  destruct (outcome (vow_all sched p q)) as [[srcs code]|e] eqn:Hj.
  - rewrite !(then_trace_ok _ _ _ Hj), (then_outcome_ok _ _ _ Hj).
    rewrite !map_app. split; reflexivity.
  - rewrite !(then_trace_err _ _ _ Hj), (then_outcome_err _ _ _ Hj).
    split; reflexivity.
Qed.

(** C10: for the same libraries, base methods, file list, keyset file and
    language, the two techs have the same template branch (same
    deduplication and reads), the same keyset branch (same read, parse and
    localization-compiler call with the same options) and the same
    initialization entry; their calls are the same up to the placeholder
    producer called and the mode given to the template compiler, and their
    results are the placeholder of each on an empty file list and otherwise
    what the template compiler yields for the same sources in mode
    undefined (bemhtml) or 'bemtree' (bemtree). Their declarations differ in
    the name and the default target only. *)
Theorem C10_techs_agree
    (libs : Libs) (base : BemXjst) (mH mT : string) (sched : Branch)
    (fileList : list FileEntry) (kf : string) :
  let thisH := {| bemhtml_base := base; mockBEMHTML := mH |} in
  let thisT := {| bemtree_base := base; mockBEMTREE := mT |} in
  let bH := BemhtmlI18n.builder libs thisH sched fileList kf in
  let bT := BemtreeI18n.builder libs thisT sched fileList kf in
  let joined :=
    outcome (vow_all sched (BemhtmlI18n._getBEMHTMLSources libs thisH fileList)
                           (BemhtmlI18n._compileI18N libs thisH kf)) in
  BemtreeI18n._getBEMTREESources libs thisT fileList
    = BemhtmlI18n._getBEMHTMLSources libs thisH fileList
  /\ BemtreeI18n._readKeysetsFile libs thisT kf = BemhtmlI18n._readKeysetsFile libs thisH kf
  /\ BemtreeI18n._compileI18N libs thisT kf = BemhtmlI18n._compileI18N libs thisH kf
  /\ (forall code, BemtreeI18n.initEntry libs code = BemhtmlI18n.initEntry libs code)
  /\ map erase_flavor (trace_of bT) = map erase_flavor (trace_of bH)
  /\ (fileList = [] -> outcome bH = Ok mH /\ outcome bT = Ok mT)
  /\ (fileList <> [] ->
        outcome bH = settle base (BemhtmlI18n.initEntry libs) None joined
        /\ outcome bT = settle base (BemhtmlI18n.initEntry libs) (Some "bemtree") joined)
  /\ flow_required BemtreeI18n.declaration = flow_required BemhtmlI18n.declaration
  /\ flow_source_filename BemtreeI18n.declaration
     = flow_source_filename BemhtmlI18n.declaration.
Proof.
  intros thisH thisT bH bT joined.
  do 4 (split; [reflexivity|]).
  split.
  { destruct fileList as [|f rest]; [reflexivity|].
    unfold bH, bT.
    rewrite bemhtml_builder_nonempty, bemtree_builder_nonempty by discriminate.
    apply (join_erased thisT (BemtreeI18n.initEntry libs) (Some "bemtree")). }
  split.
  { intros ->. split; reflexivity. }
  split; [|split; reflexivity].
  intros Hne. unfold bH, bT.
  rewrite bemhtml_builder_nonempty, bemtree_builder_nonempty by assumption.
  split.
  - apply (join_erased thisH (BemhtmlI18n.initEntry libs) None).
  - apply (join_erased thisT (BemtreeI18n.initEntry libs) (Some "bemtree")).
Qed.

(** * Further properties of the builders *)

(** ** The steps of the keyset branch *)

(** [_compileI18N], step by step: each step is taken only when the one
    before it is fulfilled. *)
Lemma compileI18N_cases libs (this : BemhtmlTech) kf :
  let cache := getNodeCache (node this) (_target this) in
  let root := getRootDir (node this) in
  BemhtmlI18n._compileI18N libs this kf
  = match keysets_read libs kf cache root with
    | Err e => ([EvKeysetsRead kf cache root], Err e)
    | Ok src =>
        match keysets_parse libs src with
        | Err e => ([EvKeysetsRead kf cache root; EvKeysetsParse src], Err e)
        | Ok parsed =>
            let opts := {| opt_version := version parsed; opt_language := _lang this |} in
            ([EvKeysetsRead kf cache root; EvKeysetsParse src;
              EvCompileI18N (core parsed) (keysets parsed) opts],
             compileI18N libs (core parsed) (keysets parsed) opts)
        end
    end.
Proof.
  intros cache root.
  unfold BemhtmlI18n._compileI18N, BemhtmlI18n._readKeysetsFile; simpl.
  fold cache root.
  destruct (keysets_read libs kf cache root) as [src|e]; simpl; [|reflexivity].
  destruct (keysets_parse libs src) as [parsed|e]; simpl; reflexivity.
Qed.

Lemma compileI18N_ok_iff libs (this : BemhtmlTech) kf code :
  outcome (BemhtmlI18n._compileI18N libs this kf) = Ok code
  <-> exists src parsed,
        keysets_read libs kf (getNodeCache (node this) (_target this))
                     (getRootDir (node this)) = Ok src
        /\ keysets_parse libs src = Ok parsed
        /\ compileI18N libs (core parsed) (keysets parsed)
             {| opt_version := version parsed; opt_language := _lang this |} = Ok code.
Proof.
  rewrite compileI18N_cases. simpl.
  destruct (keysets_read libs kf _ _) as [src|e] eqn:Hr; simpl.
  - destruct (keysets_parse libs src) as [parsed|e] eqn:Hp; simpl.
    + split; [intros H; exists src, parsed; auto|].
      intros (src' & parsed' & [= <-] & Hp' & Hc). rewrite Hp in Hp'.
      injection Hp' as <-. exact Hc.
    + split; [discriminate|].
      intros (src' & parsed' & [= <-] & Hp' & _). congruence.
  - split; [discriminate|]. intros (src' & parsed' & [=] & _).
Qed.

Lemma compileI18N_err libs (this : BemhtmlTech) kf e :
  outcome (BemhtmlI18n._compileI18N libs this kf) = Err e ->
  keysets_read libs kf (getNodeCache (node this) (_target this))
               (getRootDir (node this)) = Err e
  \/ (exists src,
        keysets_read libs kf (getNodeCache (node this) (_target this))
                     (getRootDir (node this)) = Ok src
        /\ (keysets_parse libs src = Err e
            \/ exists parsed,
                 keysets_parse libs src = Ok parsed
                 /\ compileI18N libs (core parsed) (keysets parsed)
                      {| opt_version := version parsed; opt_language := _lang this |}
                    = Err e)).
Proof.
  rewrite compileI18N_cases. simpl.
  destruct (keysets_read libs kf _ _) as [src|e'] eqn:Hr; simpl.
  - destruct (keysets_parse libs src) as [parsed|e'] eqn:Hp; simpl.
    + intros H. right. exists src. split; [done|]. right. exists parsed. auto.
    + intros [= <-]. right. exists src. auto.
  - intros [= <-]. by left.
Qed.

(** X1: in the keyset branch of either tech an error is passed on as it is
    and ends the branch: when the keyset file cannot be read, the parser and
    the localization compiler are not called; when the parser rejects what
    was read, the localization compiler is not called. *)
Theorem X1_keyset_branch_stops_at_first_error
    (libs : Libs) (base : BemXjst) (mH mT : string) (kf : string) :
  let thisH := {| bemhtml_base := base; mockBEMHTML := mH |} in
  let thisT := {| bemtree_base := base; mockBEMTREE := mT |} in
  let cache := getNodeCache (node base) (_target base) in
  let root := getRootDir (node base) in
  (forall e,
      keysets_read libs kf cache root = Err e ->
      BemhtmlI18n._compileI18N libs thisH kf = ([EvKeysetsRead kf cache root], Err e)
      /\ BemtreeI18n._compileI18N libs thisT kf = ([EvKeysetsRead kf cache root], Err e))
  /\ (forall src e,
        keysets_read libs kf cache root = Ok src ->
        keysets_parse libs src = Err e ->
        BemhtmlI18n._compileI18N libs thisH kf
          = ([EvKeysetsRead kf cache root; EvKeysetsParse src], Err e)
        /\ BemtreeI18n._compileI18N libs thisT kf
          = ([EvKeysetsRead kf cache root; EvKeysetsParse src], Err e)).
Proof.
  intros thisH thisT cache root.
  change (BemtreeI18n._compileI18N libs thisT kf)
    with (BemhtmlI18n._compileI18N libs thisH kf).
  rewrite (compileI18N_cases libs thisH kf). simpl. fold cache root.
  split.
  - intros e ->. split; reflexivity.
  - intros src e -> ->. split; reflexivity.
Qed.

(** ** How a build settles *)

Lemma readFiles_err libs filenames e :
  outcome (_readFiles libs filenames) = Err e ->
  exists f, f ∈ filenames /\ fs_read libs f = Err e.
Proof.
  induction filenames as [|f rest IH]; simpl; [discriminate|].
  destruct (fs_read libs f) as [text|e'] eqn:Hf; simpl.
  - destruct (_readFiles libs rest) as [t [srcs|e']]; simpl in *; [discriminate|].
    intros [= <-]. destruct (IH eq_refl) as (f' & Hin & Hf').
    exists f'. split; [by apply list_elem_of_further | done].
  - intros [= <-]. exists f. split; [apply list_elem_of_here | done].
Qed.

Lemma settle_ok_iff (this : BemXjst) entry mode sched
    (p : M (list Source)) (q : M string) bundle :
  settle this entry mode (outcome (vow_all sched p q)) = Ok bundle
  <-> exists processed code,
        outcome p = Ok processed /\ outcome q = Ok code
        /\ compileBEMXJST this (processed ++ [entry code]) mode = Ok bundle.
Proof.
  unfold vow_all; simpl.
  destruct (outcome p) as [srcs|e1], (outcome q) as [code|e2]; simpl.
  - split; [intros H; exists srcs, code; auto|].
    intros (srcs' & code' & [= <-] & [= <-] & H). exact H.
  - split; [discriminate | intros (? & ? & _ & [=] & _)].
  - split; [discriminate | intros (? & ? & [=] & _)].
  - split; [destruct sched; discriminate | intros (? & ? & [=] & _)].
Qed.

Lemma settle_err (this : BemXjst) entry mode sched
    (p : M (list Source)) (q : M string) e :
  settle this entry mode (outcome (vow_all sched p q)) = Err e ->
  outcome p = Err e \/ outcome q = Err e
  \/ exists processed code,
       outcome p = Ok processed /\ outcome q = Ok code
       /\ compileBEMXJST this (processed ++ [entry code]) mode = Err e.
Proof.
  unfold vow_all; simpl.
  destruct (outcome p) as [srcs|e1], (outcome q) as [code|e2]; simpl.
  - intros H. right. right. exists srcs, code. auto.
  - intros [= <-]. auto.
  - intros [= <-]. auto.
  - destruct sched; intros [= <-]; auto.
Qed.

Lemma sources_ok_iff libs (this : BemhtmlTech) fileList processed :
  outcome (BemhtmlI18n._getBEMHTMLSources libs this fileList) = Ok processed
  <-> exists raw,
        outcome (_readFiles libs (_getUniqueFilenames fileList)) = Ok raw
        /\ processSources this raw = Ok processed.
Proof.
  unfold BemhtmlI18n._getBEMHTMLSources; simpl. rewrite getSources_outcome.
  destruct (outcome (_readFiles libs (_getUniqueFilenames fileList))) as [raw|e].
  - split; [intros H; exists raw; auto | intros (raw' & [= <-] & H); exact H].
  - split; [discriminate | intros (? & [=] & _)].
Qed.

(** X2: on a non-empty file list the build of either tech is fulfilled
    exactly when every step is: the template files are read, the sources
    processed, the keyset file read and parsed, the localization code
    compiled, and the template compiler accepts the processed sources
    followed by the initialization entry; the bundle is the one the template
    compiler yields. *)
Theorem X2_build_fulfilled_iff
    (libs : Libs) (base : BemXjst) (mH mT : string) (sched : Branch)
    (fileList : list FileEntry) (kf : string) (bundle : string) :
  let thisH := {| bemhtml_base := base; mockBEMHTML := mH |} in
  let thisT := {| bemtree_base := base; mockBEMTREE := mT |} in
  let steps (mode : option string) :=
    exists raw processed src parsed code,
      outcome (_readFiles libs (_getUniqueFilenames fileList)) = Ok raw
      /\ processSources base raw = Ok processed
      /\ keysets_read libs kf (getNodeCache (node base) (_target base))
                      (getRootDir (node base)) = Ok src
      /\ keysets_parse libs src = Ok parsed
      /\ compileI18N libs (core parsed) (keysets parsed)
           {| opt_version := version parsed; opt_language := _lang base |} = Ok code
      /\ compileBEMXJST base (processed ++ [BemhtmlI18n.initEntry libs code]) mode
         = Ok bundle in
  fileList <> [] ->
  (outcome (BemhtmlI18n.builder libs thisH sched fileList kf) = Ok bundle <-> steps None)
  /\ (outcome (BemtreeI18n.builder libs thisT sched fileList kf) = Ok bundle
      <-> steps (Some "bemtree")).
Proof.
  intros thisH thisT steps Hne.
  assert (Hsteps : forall mode,
             settle base (BemhtmlI18n.initEntry libs) mode
               (outcome (vow_all sched (BemhtmlI18n._getBEMHTMLSources libs thisH fileList)
                                       (BemhtmlI18n._compileI18N libs thisH kf)))
             = Ok bundle <-> steps mode).
  { intros mode. rewrite settle_ok_iff. unfold steps. split.
    - intros (processed & code & Hp & Hq & Hc).
      apply sources_ok_iff in Hp as (raw & Hraw & Hproc).
      apply compileI18N_ok_iff in Hq as (src & parsed & Hr & Hpa & Hco).
      exists raw, processed, src, parsed, code. repeat split; assumption.
    - intros (raw & processed & src & parsed & code & Hraw & Hproc & Hr & Hpa & Hco & Hc).
      exists processed, code. split; [|split; [|exact Hc]].
      + apply sources_ok_iff. exists raw. auto.
      + apply compileI18N_ok_iff. exists src, parsed. auto. }
  split.
  - rewrite bemhtml_builder_nonempty by assumption.
    destruct (join_erased thisH (BemhtmlI18n.initEntry libs) None sched
                (BemhtmlI18n._getBEMHTMLSources libs thisH fileList)
                (BemhtmlI18n._compileI18N libs thisH kf)) as [_ ->].
    apply Hsteps.
  - rewrite bemtree_builder_nonempty by assumption.
    destruct (join_erased thisT (BemtreeI18n.initEntry libs) (Some "bemtree") sched
                (BemtreeI18n._getBEMTREESources libs thisT fileList)
                (BemtreeI18n._compileI18N libs thisT kf)) as [_ ->].
    apply Hsteps.
Qed.

Lemma X2_build_fulfilled_iff_witness :
  exists bundle,
    outcome (BemhtmlI18n.builder Demo.libs Demo.bemhtml FirstBranch [Demo.a]
               "bundle.keysets.en.js") = Ok bundle.
Proof.
  eexists.
  apply (X2_build_fulfilled_iff Demo.libs Demo.base "mock-bemhtml" "mock-bemtree"
           FirstBranch [Demo.a] "bundle.keysets.en.js"); [discriminate|].
  exists [ {| path := Some "a.bemhtml"; contents := "block('a')" |} ],
         [ {| path := Some "a.bemhtml"; contents := "block('a')" |} ],
         (JStr "keysets-source"), Demo.parsed, "i18n-code".
  repeat split; vm_compute; reflexivity.
Defined.

(** X3: on a non-empty file list a rejected build of either tech carries the
    error of one of its steps, unchanged: of reading a template file of the
    file list, of processing the sources read, of reading the keyset file, of
    parsing what was read, of compiling the localization code from what was
    parsed, or of the template compiler on the joined sources. *)
Theorem X3_build_rejection_provenance
    (libs : Libs) (base : BemXjst) (mH mT : string) (sched : Branch)
    (fileList : list FileEntry) (kf : string) (e : Error) :
  let thisH := {| bemhtml_base := base; mockBEMHTML := mH |} in
  let thisT := {| bemtree_base := base; mockBEMTREE := mT |} in
  let cache := getNodeCache (node base) (_target base) in
  let root := getRootDir (node base) in
  let provenance (mode : option string) :=
    (exists f, f ∈ map file_path fileList /\ fs_read libs f = Err e)
    \/ (exists raw,
          outcome (_readFiles libs (_getUniqueFilenames fileList)) = Ok raw
          /\ processSources base raw = Err e)
    \/ keysets_read libs kf cache root = Err e
    \/ (exists src,
          keysets_read libs kf cache root = Ok src /\ keysets_parse libs src = Err e)
    \/ (exists src parsed,
          keysets_read libs kf cache root = Ok src
          /\ keysets_parse libs src = Ok parsed
          /\ compileI18N libs (core parsed) (keysets parsed)
               {| opt_version := version parsed; opt_language := _lang base |} = Err e)
    \/ (exists processed code,
          outcome (BemhtmlI18n._getBEMHTMLSources libs thisH fileList) = Ok processed
          /\ outcome (BemhtmlI18n._compileI18N libs thisH kf) = Ok code
          /\ compileBEMXJST base (processed ++ [BemhtmlI18n.initEntry libs code]) mode
             = Err e) in
  fileList <> [] ->
  (outcome (BemhtmlI18n.builder libs thisH sched fileList kf) = Err e -> provenance None)
  /\ (outcome (BemtreeI18n.builder libs thisT sched fileList kf) = Err e ->
      provenance (Some "bemtree")).
Proof.
  intros thisH thisT cache root provenance Hne.
  assert (Hs : forall mode,
             settle base (BemhtmlI18n.initEntry libs) mode
               (outcome (vow_all sched (BemhtmlI18n._getBEMHTMLSources libs thisH fileList)
                                       (BemhtmlI18n._compileI18N libs thisH kf)))
             = Err e -> provenance mode).
  { intros mode Hs. unfold provenance.
    apply settle_err in Hs as [Hp|[Hq|(processed & code & Hp & Hq & Hc)]].
    - unfold BemhtmlI18n._getBEMHTMLSources in Hp; simpl in Hp.
      rewrite getSources_outcome in Hp.
      destruct (outcome (_readFiles libs (_getUniqueFilenames fileList)))
        as [raw|e'] eqn:Hraw.
      + right. left. by exists raw.
      + injection Hp as ->. apply readFiles_err in Hraw as (f & Hin & Hf).
        left. exists f. split; [|done].
        apply uniqueFrom_elem in Hin. tauto.
    - apply compileI18N_err in Hq as [Hr|(src & Hr & [Hpa|(parsed & Hpa & Hco)])].
      + right. right. by left.
      + right. right. right. left. by exists src.
      + do 4 right. left. by exists src, parsed.
    - do 5 right. by exists processed, code. }
  split; intros H; apply Hs; rewrite <- H.
  - rewrite bemhtml_builder_nonempty by assumption.
    symmetry. apply (join_erased thisH (BemhtmlI18n.initEntry libs) None).
  - rewrite bemtree_builder_nonempty by assumption.
    symmetry. apply (join_erased thisT (BemtreeI18n.initEntry libs) (Some "bemtree")).
Qed.

Lemma X3_build_rejection_provenance_witness :
  outcome (BemhtmlI18n.builder Demo.libs Demo.bemhtml FirstBranch [Demo.missing]
             "bundle.keysets.en.js") = Err (FileReadError "missing.bemhtml")
  /\ exists f, f ∈ map file_path [Demo.missing]
               /\ fs_read Demo.libs f = Err (FileReadError "missing.bemhtml").
Proof.
  split; [reflexivity|].
  destruct (X3_build_rejection_provenance Demo.libs Demo.base "mock-bemhtml" "mock-bemtree"
              FirstBranch [Demo.missing] "bundle.keysets.en.js"
              (FileReadError "missing.bemhtml")) as [H _]; [discriminate|].
  destruct (H eq_refl)
    as [Hf|[(raw & Hr & _)|[Hk|[(src & Hr & Hk)|[(src & parsed & _ & _ & Hk)
                                                 |(processed & code & Hp & _)]]]]].
  - exact Hf.
  - vm_compute in Hr. discriminate Hr.
  - vm_compute in Hk. discriminate Hk.
  - injection Hr as <-. vm_compute in Hk. discriminate Hk.
  - vm_compute in Hk. discriminate Hk.
  - vm_compute in Hp. discriminate Hp.
Defined.

(** ** The calls of a build *)

Lemma join_trace (this : BemXjst) entry mode sched (p : M (list Source)) (q : M string) :
  trace_of (vow_all sched p q
            ≫= (fun '(srcs, code) => _compileBEMXJST this (srcs ++ [entry code]) mode))
  = trace_of p ++ trace_of q
    ++ match outcome p, outcome q with
       | Ok srcs, Ok code => [EvCompileBEMXJST (srcs ++ [entry code]) mode]
       | _, _ => []
       end.
Proof.
  destruct (outcome p) as [srcs|e1] eqn:Hp, (outcome q) as [code|e2] eqn:Hq.
  - rewrite (then_trace_ok _ _ _ (vow_all_ok sched p q srcs code Hp Hq)), vow_all_trace.
    by rewrite <- app_assoc.
  - erewrite then_trace_err, vow_all_trace; [by rewrite app_nil_r|].
    unfold vow_all; simpl. by rewrite Hp, Hq.
  - erewrite then_trace_err, vow_all_trace; [by rewrite app_nil_r|].
    unfold vow_all; simpl. by rewrite Hp, Hq.
  - destruct sched;
      (erewrite then_trace_err, vow_all_trace; [by rewrite app_nil_r|]);
      unfold vow_all; simpl; by rewrite Hp, Hq.
Qed.

Lemma keyset_reads_reads read : keyset_reads (map EvReadFile read) = [].
Proof. induction read; simpl; auto. Qed.

Lemma sources_trace_reads libs (this : BemhtmlTech) fileList :
  exists read,
    trace_of (BemhtmlI18n._getBEMHTMLSources libs this fileList) = map EvReadFile read.
Proof.
  unfold BemhtmlI18n._getBEMHTMLSources; simpl. rewrite getSources_trace.
  destruct (readFiles_trace libs (_getUniqueFilenames fileList)) as (read & -> & _).
  by exists read.
Qed.

Lemma compileI18N_keyset_reads libs (this : BemhtmlTech) kf :
  keyset_reads (trace_of (BemhtmlI18n._compileI18N libs this kf)) = [kf].
Proof.
  rewrite compileI18N_cases. simpl.
  destruct (keysets_read libs kf _ _) as [src|e]; simpl; [|reflexivity].
  destruct (keysets_parse libs src) as [parsed|e]; reflexivity.
Qed.

Lemma compileI18N_no_mock libs (this : BemhtmlTech) kf :
  (EvMockBEMHTML ∉ trace_of (BemhtmlI18n._compileI18N libs this kf))
  /\ (EvMockBEMTREE ∉ trace_of (BemhtmlI18n._compileI18N libs this kf)).
Proof.
  rewrite compileI18N_cases. simpl.
  destruct (keysets_read libs kf _ _) as [src|e]; simpl.
  - destruct (keysets_parse libs src) as [parsed|e]; simpl;
      split; intros H; repeat (apply elem_of_cons in H as [H|H]; [discriminate|]);
      by apply elem_of_nil in H.
  - split; intros H; repeat (apply elem_of_cons in H as [H|H]; [discriminate|]);
      by apply elem_of_nil in H.
Qed.

(** X4: on a non-empty file list neither branch is cut short by the other:
    the calls of a build of either tech are all the calls of the template
    branch, all the calls of the keyset branch, and then, when both are
    fulfilled, the one call to the template compiler. So the keyset file is
    read exactly once, whether the template files could be read or not. *)
Theorem X4_branches_run_to_completion
    (libs : Libs) (base : BemXjst) (mH mT : string) (sched : Branch)
    (fileList : list FileEntry) (kf : string) :
  let thisH := {| bemhtml_base := base; mockBEMHTML := mH |} in
  let thisT := {| bemtree_base := base; mockBEMTREE := mT |} in
  let p := BemhtmlI18n._getBEMHTMLSources libs thisH fileList in
  let q := BemhtmlI18n._compileI18N libs thisH kf in
  let bH := BemhtmlI18n.builder libs thisH sched fileList kf in
  let bT := BemtreeI18n.builder libs thisT sched fileList kf in
  let last_call (mode : option string) :=
    match outcome p, outcome q with
    | Ok srcs, Ok code => [EvCompileBEMXJST (srcs ++ [BemhtmlI18n.initEntry libs code]) mode]
    | _, _ => []
    end in
  fileList <> [] ->
  trace_of bH = trace_of p ++ trace_of q ++ last_call None
  /\ trace_of bT = trace_of p ++ trace_of q ++ last_call (Some "bemtree")
  /\ keyset_reads (trace_of bH) = [kf]
  /\ keyset_reads (trace_of bT) = [kf].
Proof.
  intros thisH thisT p q bH bT last_call Hne.
  assert (HH : trace_of bH = trace_of p ++ trace_of q ++ last_call None).
  { unfold bH. rewrite bemhtml_builder_nonempty by assumption.
    apply (join_trace thisH (BemhtmlI18n.initEntry libs) None). }
  assert (HT : trace_of bT = trace_of p ++ trace_of q ++ last_call (Some "bemtree")).
  { unfold bT. rewrite bemtree_builder_nonempty by assumption.
    apply (join_trace thisT (BemtreeI18n.initEntry libs) (Some "bemtree")). }
  assert (Hk : forall mode,
             keyset_reads (trace_of p ++ trace_of q ++ last_call mode) = [kf]).
  { intros mode. unfold keyset_reads. rewrite !omap_app.
    fold (keyset_reads (trace_of p)) (keyset_reads (trace_of q)).
    destruct (sources_trace_reads libs thisH fileList) as [read Hread].
    unfold p at 1. rewrite Hread, keyset_reads_reads.
    unfold q at 1. rewrite compileI18N_keyset_reads.
    unfold last_call. by destruct (outcome p), (outcome q). }
  rewrite HH, HT. repeat split; apply Hk.
Qed.

Lemma X4_branches_run_to_completion_witness :
  keyset_reads (trace_of (BemhtmlI18n.builder Demo.libs Demo.bemhtml FirstBranch
                            [Demo.missing] "bundle.keysets.en.js"))
  = ["bundle.keysets.en.js"].
Proof.
  destruct (X4_branches_run_to_completion Demo.libs Demo.base "mock-bemhtml" "mock-bemtree"
              FirstBranch [Demo.missing] "bundle.keysets.en.js") as (_ & _ & H & _);
    [discriminate | exact H].
Defined.

(** X5: on a non-empty file list a build calls the template compiler at most
    once, as its last call, in mode undefined for bemhtml and in mode
    'bemtree' for bemtree; the placeholder producers are never called. *)
Theorem X5_template_compiler_called_last
    (libs : Libs) (base : BemXjst) (mH mT : string) (sched : Branch)
    (fileList : list FileEntry) (kf : string) :
  let thisH := {| bemhtml_base := base; mockBEMHTML := mH |} in
  let thisT := {| bemtree_base := base; mockBEMTREE := mT |} in
  let tH := trace_of (BemhtmlI18n.builder libs thisH sched fileList kf) in
  let tT := trace_of (BemtreeI18n.builder libs thisT sched fileList kf) in
  fileList <> [] ->
  (forall srcs mode,
      (srcs, mode) ∈ compiler_calls tH ->
      mode = None /\ compiler_calls tH = [(srcs, mode)]
      /\ last tH = Some (EvCompileBEMXJST srcs mode))
  /\ (forall srcs mode,
        (srcs, mode) ∈ compiler_calls tT ->
        mode = Some "bemtree" /\ compiler_calls tT = [(srcs, mode)]
        /\ last tT = Some (EvCompileBEMXJST srcs mode))
  /\ (forall t, t = tH \/ t = tT -> (EvMockBEMHTML ∉ t) /\ (EvMockBEMTREE ∉ t)).
Proof.
  intros thisH thisT tH tT Hne.
  set (p := BemhtmlI18n._getBEMHTMLSources libs thisH fileList).
  set (q := BemhtmlI18n._compileI18N libs thisH kf).
  assert (Hshape : forall m,
             let t := trace_of p ++ trace_of q
                      ++ match outcome p, outcome q with
                         | Ok srcs, Ok code =>
                             [EvCompileBEMXJST (srcs ++ [BemhtmlI18n.initEntry libs code]) m]
                         | _, _ => []
                         end in
             (forall srcs mode,
                 (srcs, mode) ∈ compiler_calls t ->
                 mode = m /\ compiler_calls t = [(srcs, mode)]
                 /\ last t = Some (EvCompileBEMXJST srcs mode))
             /\ (EvMockBEMHTML ∉ t) /\ (EvMockBEMTREE ∉ t)).
  { intros m t.
    pose proof (bemhtml_sources_quiet libs thisH fileList) as Hp. fold p in Hp.
    pose proof (compileI18N_no_compiler_call libs thisH kf) as Hq. fold q in Hq.
    destruct (sources_trace_reads libs thisH fileList) as [read Hread]. fold p in Hread.
    destruct (compileI18N_no_mock libs thisH kf) as [HqH HqT]. fold q in HqH, HqT.
    assert (Hnop : forall ev, (forall f, ev <> EvReadFile f) -> ev ∉ trace_of p).
    { intros ev Hev. rewrite Hread. intros (f & -> & _)%list_elem_of_fmap. by apply (Hev f). }
    split.
    - intros srcs mode. unfold t, compiler_calls. rewrite !omap_app.
      fold (compiler_calls (trace_of p)) (compiler_calls (trace_of q)).
      rewrite Hp, Hq. simpl.
      destruct (outcome p) as [srcs'|e1], (outcome q) as [code'|e2]; simpl;
        try (by intros []%elem_of_nil).
      intros [= -> ->]%list_elem_of_singleton.
      repeat split. by rewrite !app_assoc, last_snoc.
    - unfold t. split; intros H;
        apply elem_of_app in H as [H|H]; try (revert H; apply Hnop; discriminate);
        apply elem_of_app in H as [H|H]; try done;
        destruct (outcome p), (outcome q);
        try (by apply elem_of_nil in H);
        apply list_elem_of_singleton in H; discriminate. }
  assert (HH : tH = trace_of p ++ trace_of q
                    ++ match outcome p, outcome q with
                       | Ok srcs, Ok code =>
                           [EvCompileBEMXJST (srcs ++ [BemhtmlI18n.initEntry libs code]) None]
                       | _, _ => []
                       end).
  { unfold tH. rewrite bemhtml_builder_nonempty by assumption.
    apply (join_trace thisH (BemhtmlI18n.initEntry libs) None). }
  assert (HT : tT = trace_of p ++ trace_of q
                    ++ match outcome p, outcome q with
                       | Ok srcs, Ok code =>
                           [EvCompileBEMXJST (srcs ++ [BemhtmlI18n.initEntry libs code])
                              (Some "bemtree")]
                       | _, _ => []
                       end).
  { unfold tT. rewrite bemtree_builder_nonempty by assumption.
    apply (join_trace thisT (BemtreeI18n.initEntry libs) (Some "bemtree")). }
  split; [rewrite HH; apply (Hshape None)|].
  split; [rewrite HT; apply (Hshape (Some "bemtree"))|].
  intros t [->| ->]; [rewrite HH; apply (Hshape None) | rewrite HT; apply (Hshape (Some "bemtree"))].
Qed.

Lemma X5_template_compiler_called_last_witness :
  last (trace_of (BemtreeI18n.builder Demo.libs Demo.bemtree FirstBranch [Demo.a]
                    "bundle.keysets.en.js"))
  = Some (EvCompileBEMXJST
            [ {| path := Some "a.bemhtml"; contents := "block('a')" |};
              BemtreeI18n.initEntry Demo.libs "i18n-code" ] (Some "bemtree")).
Proof.
  destruct (X5_template_compiler_called_last Demo.libs Demo.base "mock-bemhtml" "mock-bemtree"
              FirstBranch [Demo.a] "bundle.keysets.en.js") as (_ & H & _); [discriminate|].
  apply H. vm_compute. apply list_elem_of_here.
Defined.

(** ** The text of the entry *)

Lemma append_cancel_l p a b : p +:+ a = p +:+ b -> a = b.
Proof. induction p as [|c p IH]; simpl; [done|]. intros [= H]. auto. Qed.

Lemma string_length_append a s :
  String.length (a +:+ s) = String.length a + String.length s.
Proof. induction a as [|c a IH]; simpl; [done|]. by rewrite IH. Qed.

Lemma append_cancel_r s a b : a +:+ s = b +:+ s -> a = b.
Proof.
  revert b. induction a as [|c a IH]; intros [|c' b] H.
  - done.
  - apply (f_equal String.length) in H.
    rewrite !string_length_append in H. simpl in H. lia.
  - apply (f_equal String.length) in H.
    rewrite !string_length_append in H. simpl in H. lia.
  - simpl in H. injection H as -> H. f_equal. by apply IH.
Qed.

(** X9: the text of the initialization entry determines the localization
    code spliced into it: for one end-of-line string, different codes give
    entries with different texts, in either tech. *)
Theorem X9_initEntry_text_determines_code (libs : Libs) (code1 code2 : string) :
  code1 <> code2 ->
  contents (BemhtmlI18n.initEntry libs code1) <> contents (BemhtmlI18n.initEntry libs code2)
  /\ contents (BemtreeI18n.initEntry libs code1)
     <> contents (BemtreeI18n.initEntry libs code2).
Proof.
  intros Hne.
  assert (H : contents (BemhtmlI18n.initEntry libs code1)
              = contents (BemhtmlI18n.initEntry libs code2) -> code1 = code2).
  { unfold BemhtmlI18n.initEntry, join; simpl contents. intros H.
    apply append_cancel_l in H.
    apply append_cancel_l in H.
    apply append_cancel_l in H.
    apply append_cancel_l in H.
    apply append_cancel_r in H.
    apply append_cancel_l in H.
    by apply append_cancel_r in H. }
  split; intros Heq; apply Hne, H, Heq.
Qed.

Lemma X9_initEntry_text_determines_code_witness :
  contents (BemhtmlI18n.initEntry Demo.libs "i18n-en")
  <> contents (BemhtmlI18n.initEntry Demo.libs "i18n-ru").
Proof.
  apply (X9_initEntry_text_determines_code Demo.libs "i18n-en" "i18n-ru").
  discriminate.
Defined.

(** ** The order in which the branches settle *)

Lemma vow_all_schedule {A B} sched sched' (p : M A) (q : M B) :
  (exists a, outcome p = Ok a) \/ (exists b, outcome q = Ok b) ->
  vow_all sched p q = vow_all sched' p q.
Proof.
  unfold vow_all.
  destruct (outcome p) as [a|e1], (outcome q) as [b|e2]; try done.
  intros [[a Ha]|[b Hb]]; discriminate.
Qed.

(** X10: on a non-empty file list the order in which the two branches settle
    never changes the calls a build makes, and changes its result only when
    both branches are rejected: when the template branch or the keyset branch
    is fulfilled, the build of either tech is the same for every order. *)
Theorem X10_settling_order_matters_only_when_both_fail
    (libs : Libs) (base : BemXjst) (mH mT : string) (sched sched' : Branch)
    (fileList : list FileEntry) (kf : string) :
  let thisH := {| bemhtml_base := base; mockBEMHTML := mH |} in
  let thisT := {| bemtree_base := base; mockBEMTREE := mT |} in
  let p := BemhtmlI18n._getBEMHTMLSources libs thisH fileList in
  let q := BemhtmlI18n._compileI18N libs thisH kf in
  fileList <> [] ->
  trace_of (BemhtmlI18n.builder libs thisH sched fileList kf)
    = trace_of (BemhtmlI18n.builder libs thisH sched' fileList kf)
  /\ trace_of (BemtreeI18n.builder libs thisT sched fileList kf)
    = trace_of (BemtreeI18n.builder libs thisT sched' fileList kf)
  /\ ((exists srcs, outcome p = Ok srcs) \/ (exists code, outcome q = Ok code) ->
      BemhtmlI18n.builder libs thisH sched fileList kf
        = BemhtmlI18n.builder libs thisH sched' fileList kf
      /\ BemtreeI18n.builder libs thisT sched fileList kf
        = BemtreeI18n.builder libs thisT sched' fileList kf).
Proof.
  intros thisH thisT p q Hne.
  rewrite !bemhtml_builder_nonempty, !bemtree_builder_nonempty by assumption.
  split; [by rewrite !join_trace|].
  split; [by rewrite !join_trace|].
  intros Hok.
  change (BemtreeI18n._getBEMTREESources libs thisT fileList) with p.
  change (BemtreeI18n._compileI18N libs thisT kf) with q.
  fold p q. by rewrite (vow_all_schedule sched sched' p q Hok).
Qed.

Lemma X10_settling_order_matters_only_when_both_fail_witness :
  BemhtmlI18n.builder Demo.libs Demo.bemhtml FirstBranch [Demo.missing]
    "bundle.keysets.en.js"
  = BemhtmlI18n.builder Demo.libs Demo.bemhtml SecondBranch [Demo.missing]
      "bundle.keysets.en.js".
Proof.
  destruct (X10_settling_order_matters_only_when_both_fail Demo.libs Demo.base
              "mock-bemhtml" "mock-bemtree" FirstBranch SecondBranch [Demo.missing]
              "bundle.keysets.en.js") as (_ & _ & H); [discriminate|].
  destruct H as [H _]; [|exact H].
  right. exists "i18n-code". reflexivity.
Defined.
